(** * BookS: batch converters and the bulk file scraper

    A shallow embedding of [file_scraper.py], [doc2docx.py] and [docx2md.py].

    The three scripts are orchestration code: they test the file system,
    call an external program or an HTTP server, write files and report.
    The embedding threads an explicit [world] (file system, the trace of
    HTTP requests, the trace of spawned processes, the printed lines and
    the logging records) through every function; what the outside answers
    (the HTTP server, the external converter, [urllib.parse.urljoin]) is
    a parameter of the section that holds the script. *)

From Stdlib Require Import ZArith List Strings.String Strings.Ascii Strings.Byte Bool Lia.
From stdpp Require Import base gmap strings list.

Local Open Scope string_scope.
Local Open Scope Z_scope.

(** ** Python values shared by the three scripts *)

Module Py.

(** The exception classes that the scripts raise or let through. *)
Inductive exn : Type :=
  | ArgumentTypeError (msg : string)
  | FileNotFoundError
  | OSError
  | RequestException (err : string)
  | KeyboardInterrupt
  | UnboundLocalError
  | ValueError
  | AttributeError
  | KeyError (key : string)
  | UnicodeDecodeError.

(** A call either returns a value or raises. *)
Inductive outcome (A : Type) : Type :=
  | Return (a : A)
  | Raise (e : exn).
Arguments Return {A} a.
Arguments Raise {A} e.

(** [except Exception] catches everything but [KeyboardInterrupt], which
    derives from [BaseException]. *)
Definition is_Exception (e : exn) : bool :=
  match e with KeyboardInterrupt => false | _ => true end.

(** [bytes] objects. *)
Abbreviation bytes := (list Byte.byte).

(** [str.startswith] and [str.endswith]. *)
Definition startswith (s p : string) : bool := String.prefix p s.

Definition endswith (s e : string) : bool :=
  (String.length e <=? String.length s)%nat
  && String.eqb (substring (String.length s - String.length e) (String.length e) s) e.

(** [str.rfind] of a single character: the last index, or -1. *)
Fixpoint rfind_nat (c : ascii) (s : string) : option nat :=
  match s with
  | EmptyString => None
  | String a r =>
      match rfind_nat c r with
      | Some i => Some (S i)
      | None => if Ascii.eqb a c then Some 0%nat else None
      end
  end.

Definition rfind (c : ascii) (s : string) : Z :=
  match rfind_nat c s with Some i => Z.of_nat i | None => -1 end.

(** Slices [p[i:]] and [p[:i]] for [0 <= i]. *)
Definition slice_from (i : nat) (p : string) : string :=
  substring i (String.length p - i) p.
Definition slice_to (i : nat) (p : string) : string := substring 0 i p.

(** ** [os.path] (posixpath) *)

(** [os.path.basename]: [i = p.rfind('/') + 1; return p[i:]]. *)
Definition basename (p : string) : string :=
  slice_from (Z.to_nat (rfind "/" p + 1)) p.

(** [os.path.splitext]: split at the last dot that follows the last
    separator, unless only dots precede it in the file name. *)
Fixpoint splitext_scan (p : string) (filenameIndex : nat) (steps : nat)
    (dotIndex : nat) : string * string :=
  match steps with
  | O => (p, "")
  | S steps' =>
      if negb (String.eqb (substring filenameIndex 1 p) ".")
      then (slice_to dotIndex p, slice_from dotIndex p)
      else splitext_scan p (S filenameIndex) steps' dotIndex
  end.

Definition splitext (p : string) : string * string :=
  let sepIndex := rfind "/" p in
  let dotIndex := rfind "." p in
  if sepIndex <? dotIndex
  then
    let filenameIndex := Z.to_nat (sepIndex + 1) in
    splitext_scan p filenameIndex (Z.to_nat dotIndex - filenameIndex) (Z.to_nat dotIndex)
  else (p, "").

(** [os.path.join] of two components. *)
Definition join (a b : string) : string :=
  if startswith b "/" then b
  else if String.eqb a "" || endswith a "/" then a ++ b
  else a ++ "/" ++ b.

(** ** [bytes.strip] and [bytes.decode("utf-8")] *)

Definition is_ascii_whitespace (b : Byte.byte) : bool :=
  let n := Byte.to_N b in
  (N.eqb n 32 || N.eqb n 9 || N.eqb n 10 || N.eqb n 13 || N.eqb n 11 || N.eqb n 12)%N.

Fixpoint lstrip (l : bytes) : bytes :=
  match l with
  | [] => []
  | b :: r => if is_ascii_whitespace b then lstrip r else l
  end.

Definition strip (l : bytes) : bytes := rev (lstrip (rev (lstrip l))).

(** Truth value of a [bytes] object: non-empty. *)
Definition truthy (l : bytes) : bool :=
  match l with [] => false | _ :: _ => true end.

Definition in_range (lo hi : N) (b : Byte.byte) : bool :=
  let n := Byte.to_N b in (N.leb lo n && N.leb n hi)%N.

Definition cont (b : Byte.byte) : bool := in_range 128 191 b.

(** Well-formed UTF-8 as the strict decoder accepts it (no overlong
    forms, no surrogates, nothing above U+10FFFF).  [fuel] bounds the
    number of code points. *)
Fixpoint utf8_valid_fuel (fuel : nat) (l : bytes) : bool :=
  match fuel with
  | O => match l with [] => true | _ => false end
  | S fuel' =>
      match l with
      | [] => true
      | b0 :: r0 =>
          if in_range 0 127 b0 then utf8_valid_fuel fuel' r0
          else if in_range 194 223 b0 then
            match r0 with
            | b1 :: r1 => cont b1 && utf8_valid_fuel fuel' r1
            | _ => false
            end
          else if in_range 224 239 b0 then
            match r0 with
            | b1 :: b2 :: r2 =>
                (if in_range 224 224 b0 then in_range 160 191 b1
                 else if in_range 237 237 b0 then in_range 128 159 b1
                 else cont b1)
                && cont b2 && utf8_valid_fuel fuel' r2
            | _ => false
            end
          else if in_range 240 244 b0 then
            match r0 with
            | b1 :: b2 :: b3 :: r3 =>
                (if in_range 240 240 b0 then in_range 144 191 b1
                 else if in_range 244 244 b0 then in_range 128 143 b1
                 else cont b1)
                && cont b2 && cont b3 && utf8_valid_fuel fuel' r3
            | _ => false
            end
          else false
      end
  end.

Definition utf8_valid (l : bytes) : bool := utf8_valid_fuel (List.length l) l.

(** [b.decode("utf-8")]: text is kept in its UTF-8 encoding. *)
Definition decode (l : bytes) : outcome string :=
  if utf8_valid l then Return (string_of_list_byte l) else Raise UnicodeDecodeError.

(** ** The world *)

(** A path names a regular file with its contents, or a directory.
    Paths are compared as strings; permissions, symbolic links, missing
    parent directories and full disks are outside the model, so [open]
    fails only on a directory and [os.remove] only on what is not a
    regular file. *)
Inductive node : Type :=
  | File (data : bytes)
  | Dir.

(** The printed lines of [file_scraper.py], one constructor per [print]
    with the values it interpolates. *)
Inductive message : Type :=
  | FilesToBeDownloaded (names : list string)
  | Overwriting (filename : string)
  | Skipping (filename : string)
  | Downloading (filename : string) (downloaded_bytes remaining_bytes : Z)
  | Downloaded (filename : string)
  | ErrorLine (filename : string) (err : string)
  | Deleted (filename : string)
  | Interrupted (filename : string)
  | DownloadResults (success overwrite skipped error : Z).

(** A [logging] call: level, format string and its arguments.  The
    world keeps the calls; what the handlers that a script installs do
    with a record (the console, the file "docx2md.log" or
    "doc2docx.log") is outside the model, and nothing is stated about
    those files. *)
Inductive level : Type := DEBUG | INFO | ERROR.

Record log_record : Type := LogRecord {
  lvl : level;
  fmt : string;
  args : list string
}.

Record world : Type := World {
  fs : gmap string node;          (* the file system *)
  reqs : list string;             (* URLs requested so far, oldest first *)
  procs : list (list string);     (* command lines of the programs run so far *)
  out : list message;             (* printed lines, oldest first *)
  log : list log_record           (* logging calls, oldest first *)
}.

Definition set_fs (f : gmap string node) (w : world) : world :=
  {| fs := f; reqs := reqs w; procs := procs w; out := out w; log := log w |}.

Definition print (m : message) (w : world) : world :=
  {| fs := fs w; reqs := reqs w; procs := procs w; out := out w ++ [m]; log := log w |}.

Definition logging (l : level) (f : string) (a : list string) (w : world) : world :=
  {| fs := fs w; reqs := reqs w; procs := procs w; out := out w;
     log := log w ++ [LogRecord l f a] |}.

Definition os_path_exists (p : string) (w : world) : bool :=
  match fs w !! p with Some _ => true | None => false end.

(** [os.remove]: only a regular file can be removed. *)
Definition os_remove (p : string) (w : world) : outcome world :=
  match fs w !! p with
  | Some (File _) => Return (set_fs (delete p (fs w)) w)
  | _ => Raise OSError
  end.

(** [open(p, "wb")] of a path whose folder is there: creates or
    truncates a regular file.  The file system is a map from whole paths
    to nodes, and the folder of [p] is not looked up. *)
Definition open_wb (p : string) (w : world) : outcome world :=
  match fs w !! p with
  | Some Dir => Raise OSError
  | _ => Return (set_fs (<[p := File []]> (fs w)) w)
  end.

(** What [subprocess.Popen(argv, stdout=PIPE, stderr=PIPE)] followed by
    [process.communicate()] gives: the program cannot be started, or it
    runs to its end and leaves the file system as it pleases. *)
Inductive popen_result : Type :=
  | PopenRaises (e : exn) (msg : string)      (* with [str(e)] *)
  | PopenExits (stdout stderr : bytes) (returncode : Z) (fs' : gmap string node).

(** A program that ran is recorded in [procs]; a [Popen] that raised
    started none. *)
Definition spawn (popen : list string -> gmap string node -> popen_result)
    (argv : list string) (w : world) : popen_result * world :=
  match popen argv (fs w) with
  | PopenRaises e msg => (PopenRaises e msg, w)
  | PopenExits so se rc fs' =>
      (PopenExits so se rc fs',
       {| fs := fs'; reqs := reqs w; procs := procs w ++ [argv];
          out := out w; log := log w |})
  end.

End Py.

(** ** file_scraper.py

    The HTTP server is an oracle: it answers the [n]-th request of a run
    with a response, with a requests exception, or the user interrupts
    the wait.  A [KeyboardInterrupt] is placed where the script waits for
    the network: in [requests.get] and between two chunks of the
    stream. *)

Module FileScraper.
Import Py.

(** *** The validators *)

Definition valid_url (s : string) : outcome string :=
  if negb (startswith s "http://") && negb (startswith s "https://")
  then Raise (ArgumentTypeError
         ("Invalid URL '" ++ s ++ "'. URL should start with 'http://' or 'https://'."))
  else Return s.

Definition valid_extension (s : string) : outcome string :=
  if negb (startswith s ".")
  then Raise (ArgumentTypeError
         ("Invalid extension '" ++ s ++ "'. Extension should start with a dot."))
  else Return s.

(** *** What the HTTP server answers *)

(** The [Content-Length] header as [int(...)] reads it: missing, an
    integer, or text that [int] rejects. *)
Inductive header : Type :=
  | CLAbsent
  | CLInt (n : Z)
  | CLMalformed.

(** How the iteration over [response.iter_content(1024)] ends, after
    it has yielded its chunks. *)
Inductive stream_end : Type :=
  | StreamDone
  | StreamFails (err : string)     (* a requests exception, with [str(e)] *)
  | StreamInterrupted.             (* KeyboardInterrupt *)

Record response : Type := Response {
  content_length : header;
  chunks : list bytes;             (* the chunks yielded, in order *)
  ending : stream_end;
  anchors : list (option string)   (* [link.get("href")] of every <a> of [response.text] *)
}.

Inductive get_result : Type :=
  | GetOk (r : response)
  | GetRaises (err : string)       (* a requests exception, with [str(e)] *)
  | GetInterrupted.                (* KeyboardInterrupt *)

(** The download tally, a [dict] from result name to count. *)
Definition initial_results : gmap string Z :=
  <["success" := 0]> (<["overwrite" := 0]> (<["skipped" := 0]> (<["error" := 0]> ∅))).

(** [d[k]] *)
Definition getitem (d : gmap string Z) (k : string) : outcome Z :=
  match d !! k with Some n => Return n | None => Raise (KeyError k) end.

(** [d[k] += 1] *)
Definition increment (d : gmap string Z) (k : string) : outcome (gmap string Z) :=
  match d !! k with Some n => Return (<[k := n + 1]> d) | None => Raise (KeyError k) end.

Section Scraper.

(** The answer to the [n]-th HTTP request of the run: URL, [stream]
    flag and timeout are those of the call. *)
Variable net : nat -> string -> bool -> Z -> get_result.

(** [urllib.parse.urljoin] on two strings: the joined URL, or the
    exception it raises ([ValueError] on a malformed reference). *)
Variable urljoin : string -> string -> outcome string.

(** [st_size] that the system reports for a directory. *)
Variable dir_size : string -> Z.

(** [os.makedirs] on a path and a file system: the file system with
    the directory and its missing parents, or the exception it raises. *)
Variable makedirs : string -> gmap string node -> outcome (gmap string node).

Definition requests_get (url : string) (stream : bool) (timeout : Z) (w : world)
  : get_result * world :=
  (net (List.length (reqs w)) url stream timeout,
   {| fs := fs w; reqs := reqs w ++ [url]; procs := procs w; out := out w; log := log w |}).

Definition os_path_getsize (p : string) (w : world) : outcome Z :=
  match fs w !! p with
  | Some (File d) => Return (Z.of_nat (List.length d))
  | Some Dir => Return (dir_size p)
  | None => Raise OSError
  end.

(** [int(response.headers.get("content-length", 0))] *)
Definition int_content_length (h : header) : outcome Z :=
  match h with
  | CLAbsent => Return 0
  | CLInt n => Return n
  | CLMalformed => Raise ValueError
  end.

(** The body of [for data in response.iter_content(1024)]: [written]
    is what the file object has received so far, [f.tell()] its length. *)
Fixpoint write_chunks (filename : string) (verbose : bool) (total_size : Z)
    (cs : list bytes) (written : bytes) (w : world) : world :=
  match cs with
  | [] => w
  | data :: rest =>
      let written' := (written ++ data)%list in
      let w1 := set_fs (<[filename := File written']> (fs w)) w in
      let tell := Z.of_nat (List.length written') in
      let w2 := if verbose
                then print (Downloading filename tell (total_size - tell)) w1
                else w1 in
      write_chunks filename verbose total_size rest written' w2
  end.

(** The [try] block of [download_file].  Besides the outcome it gives
    the local [total_size], unbound ([None]) until its assignment ran. *)
Definition try_block (url filename : string) (verbose : bool) (timeout : Z) (w : world)
  : outcome string * option Z * world :=
  let '(g, w) := requests_get url true timeout w in
  match g with
  | GetRaises err => (Raise (RequestException err), None, w)
  | GetInterrupted => (Raise KeyboardInterrupt, None, w)
  | GetOk resp =>
      match int_content_length (content_length resp) with
      | Raise e => (Raise e, None, w)
      | Return total_size =>
          match open_wb filename w with
          | Raise e => (Raise e, Some total_size, w)
          | Return w =>
              let w := write_chunks filename verbose total_size (chunks resp) [] w in
              match ending resp with
              | StreamFails err => (Raise (RequestException err), Some total_size, w)
              | StreamInterrupted => (Raise KeyboardInterrupt, Some total_size, w)
              | StreamDone =>
                  let w := if negb verbose then print (Downloaded filename) w else w in
                  (Return "success", Some total_size, w)
              end
          end
      end
  end.

(** [except requests.exceptions.RequestException as e] *)
Definition except_clause (filename : string) (r : outcome string) (w : world)
  : outcome string * world :=
  match r with
  | Raise (RequestException err) => (Return "error", print (ErrorLine filename err) w)
  | _ => (r, w)
  end.

(** The [finally] block: it runs with the pending outcome [r] of the
    [try]/[except] part, and an exception of its own replaces [r]. *)
Definition finally_clause (filename : string) (total_size : option Z)
    (r : outcome string) (w : world) : outcome string * world :=
  if os_path_exists filename w then
    match os_path_getsize filename w with
    | Raise e => (Raise e, w)
    | Return size =>
        match total_size with
        | None => (Raise UnboundLocalError, w)
        | Some total =>
            if negb (size =? total) then
              match os_remove filename w with
              | Raise e => (Raise e, w)
              | Return w' => (r, print (Deleted filename) w')
              end
            else (r, w)
        end
    end
  else (r, w).

Definition try_except_finally (url filename : string) (verbose : bool) (timeout : Z)
    (w : world) : outcome string * world :=
  let '(r, total_size, w) := try_block url filename verbose timeout w in
  let '(r, w) := except_clause filename r w in
  finally_clause filename total_size r w.

Definition download_file (url filename : string) (verbose overwrite : bool)
    (timeout : Z) (w : world) : outcome string * world :=
  if os_path_exists filename w then
    if overwrite then
      try_except_finally url filename verbose timeout (print (Overwriting filename) w)
    else
      (Return "skipped", print (Skipping filename) w)
  else try_except_finally url filename verbose timeout w.

(** [any(link.get("href").endswith(extension) for extension in extensions)]:
    a link without [href] gives [None], which has no [endswith]. *)
Fixpoint any_endswith (href : option string) (extensions : list string) : outcome bool :=
  match extensions with
  | [] => Return false
  | extension :: rest =>
      match href with
      | None => Raise AttributeError
      | Some h => if endswith h extension then Return true else any_endswith href rest
      end
  end.

(** [urljoin(url, link.get("href"))]; [urljoin] returns the base for a
    missing reference. *)
Definition urljoin_href (url : string) (href : option string) : outcome string :=
  match href with Some h => urljoin url h | None => Return url end.

(** The list comprehension that builds [files_to_download]: the links
    are taken in document order, the condition of a link is tested and,
    when it holds, its [href] is joined before the next link is looked
    at; the first exception ends the comprehension. *)
Fixpoint files_to_download (url : string) (extensions : list string)
    (links : list (option string)) : outcome (list string) :=
  match links with
  | [] => Return []
  | link :: rest =>
      match any_endswith link extensions with
      | Raise e => Raise e
      | Return false => files_to_download url extensions rest
      | Return true =>
          match urljoin_href url link with
          | Raise e => Raise e
          | Return file =>
              match files_to_download url extensions rest with
              | Raise e => Raise e
              | Return files => Return (file :: files)
              end
          end
      end
  end.

(** The [except KeyboardInterrupt] handler of the batch loop. *)
Definition interrupt_handler (filename : string) (download_results : gmap string Z)
    (w : world) : outcome (gmap string Z) * world :=
  let w := print (Interrupted filename) w in
  let removed :=
    if os_path_exists filename w then
      match os_remove filename w with
      | Raise e => Raise e
      | Return w' => Return (print (Deleted filename) w')
      end
    else Return w in
  match removed with
  | Raise e => (Raise e, w)
  | Return w => (increment download_results "error", w)
  end.

(** [for file in files_to_download: ...]; the handler ends the loop. *)
Fixpoint download_loop (files : list string) (project_folder : string)
    (verbose overwrite : bool) (timeout : Z)
    (download_results : gmap string Z) (w : world)
  : outcome (gmap string Z) * world :=
  match files with
  | [] => (Return download_results, w)
  | file :: rest =>
      let filename := join project_folder (basename file) in
      match download_file file filename verbose overwrite timeout w with
      | (Return result, w) =>
          match increment download_results result with
          | Raise e => (Raise e, w)
          | Return d => download_loop rest project_folder verbose overwrite timeout d w
          end
      | (Raise KeyboardInterrupt, w) => interrupt_handler filename download_results w
      | (Raise e, w) => (Raise e, w)
      end
  end.

(** The final [print] of the tally. *)
Definition print_results (d : gmap string Z) (w : world) : outcome unit * world :=
  match getitem d "success", getitem d "overwrite", getitem d "skipped", getitem d "error" with
  | Return s, Return o, Return k, Return e => (Return tt, print (DownloadResults s o k e) w)
  | Raise x, _, _, _ => (Raise x, w)
  | _, Raise x, _, _ => (Raise x, w)
  | _, _, Raise x, _ => (Raise x, w)
  | _, _, _, Raise x => (Raise x, w)
  end.

Definition download_files (url : string) (extensions : list string)
    (project_folder : string) (create_folder verbose overwrite : bool)
    (timeout : Z) (w : world) : outcome unit * world :=
  let folder :=
    if negb (os_path_exists project_folder w) then
      if create_folder then
        match makedirs project_folder (fs w) with
        | Raise e => Raise e
        | Return f => Return (set_fs f w)
        end
      else Raise FileNotFoundError
    else Return w in
  match folder with
  | Raise e => (Raise e, w)
  | Return w =>
      let '(g, w) := requests_get url false timeout w in
      match g with
      | GetRaises err => (Raise (RequestException err), w)
      | GetInterrupted => (Raise KeyboardInterrupt, w)
      | GetOk resp =>
          match files_to_download url extensions (anchors resp) with
          | Raise e => (Raise e, w)
          | Return files =>
              let w := if verbose
                       then print (FilesToBeDownloaded (map basename files)) w
                       else w in
              match download_loop files project_folder verbose overwrite timeout
                      initial_results w with
              | (Raise e, w) => (Raise e, w)
              | (Return d, w) => print_results d w
              end
          end
      end
  end.

End Scraper.

End FileScraper.

(** ** doc2docx.py *)

Module Doc2Docx.
Import Py.

Section Converter.

(** The office suite, as a function of its command line and of the file
    system it finds. *)
Variable popen : list string -> gmap string node -> popen_result.

Definition output_file_of (output_path doc_file : string) : string :=
  join output_path (fst (splitext (basename doc_file)) ++ ".docx").

Definition command_line (libreoffice_path doc_file output_path : string) : list string :=
  [libreoffice_path; "--headless"; "--convert-to"; "docx"; doc_file; "--outdir"; output_path].

(** From [if stdout:] to the end of [convert_to_docx]. *)
Definition report (doc_file output_file : string) (stdout stderr : bytes) (w : world)
  : outcome unit * world :=
  let logged_output :=
    if truthy stdout then
      match decode stdout with
      | Raise e => Raise e
      | Return s => Return (logging INFO "Output: %s" [s] w)
      end
    else Return w in
  match logged_output with
  | Raise e => (Raise e, w)
  | Return w =>
      if truthy stderr then
        match decode stderr with
        | Raise e => (Raise e, w)
        | Return s =>
            let w := logging ERROR "Error: %s" [s] w in
            if truthy (strip stderr) then
              (Return tt, logging ERROR "Failed to convert %s to %s." [doc_file; output_file] w)
            else
              (Return tt, logging INFO "Converted: %s to %s" [doc_file; output_file] w)
        end
      else (Return tt, logging INFO "Converted: %s to %s" [doc_file; output_file] w)
  end.

(** From [subprocess.Popen] on. *)
Definition convert (libreoffice_path doc_file output_path output_file : string) (w : world)
  : outcome unit * world :=
  match spawn popen (command_line libreoffice_path doc_file output_path) w with
  | (PopenRaises e _, w) => (Raise e, w)
  | (PopenExits stdout stderr _ _, w) => report doc_file output_file stdout stderr w
  end.

Definition convert_to_docx (libreoffice_path doc_file output_path : string)
    (overwrite : bool) (w : world) : outcome unit * world :=
  let output_file := output_file_of output_path doc_file in
  if os_path_exists output_file w then
    if overwrite then
      convert libreoffice_path doc_file output_path output_file
        (logging INFO "File %s already exists. Overwriting." [output_file] w)
    else
      (Return tt, logging INFO "File %s already exists. Skipping conversion." [output_file] w)
  else convert libreoffice_path doc_file output_path output_file w.

End Converter.

End Doc2Docx.

(** ** docx2md.py *)

Module Docx2Md.
Import Py.

Section Converter.

(** Pandoc, as a function of its command line and of the file system. *)
Variable popen : list string -> gmap string node -> popen_result.

Definition output_file_of (output_directory docx_file : string) : string :=
  join output_directory (fst (splitext (basename docx_file)) ++ ".md").

Definition command_line (pandoc_path docx_file output_file : string) : list string :=
  [pandoc_path; "-s"; docx_file; "-t"; "markdown"; "-o"; output_file].

Definition convert_to_md (pandoc_path docx_file output_directory : string)
    (overwrite verbose : bool) (w : world) : outcome unit * world :=
  let output_file := output_file_of output_directory docx_file in
  if negb overwrite && os_path_exists output_file w then
    (Return tt, logging INFO "Skipping %s because %s already exists" [docx_file; output_file] w)
  else
    let w := logging DEBUG "Converting %s to %s" [docx_file; output_file] w in
    match spawn popen (command_line pandoc_path docx_file output_file) w with
    | (PopenRaises e msg, w) =>
        if is_Exception e then
          (Return tt,
           logging ERROR "Failed to convert %s to %s: %s" [docx_file; output_file; msg] w)
        else (Raise e, w)
    | (PopenExits stdout stderr returncode _, w) =>
        if negb (returncode =? 0) then
          match decode stderr with
          | Raise e => (Raise e, w)
          | Return s =>
              (Return tt,
               logging ERROR "Failed to convert %s to %s: %s" [docx_file; output_file; s] w)
          end
        else
          let logged_output :=
            if verbose then
              match decode stdout with
              | Raise e => Raise e
              | Return s => Return (logging DEBUG "Pandoc output for %s: %s" [docx_file; s] w)
              end
            else Return w in
          match logged_output with
          | Raise e => (Raise e, w)
          | Return w =>
              (Return tt, logging INFO "Finished converting %s to %s" [docx_file; output_file] w)
          end
    end.

End Converter.

End Docx2Md.

(** ** Notions used to state the properties *)

Module Notions.
Import Py FileScraper.

(** The number of "[Interrupted]" lines among printed lines. *)
Fixpoint interrupted_lines (l : list message) : nat :=
  match l with
  | [] => O
  | Interrupted _ :: r => S (interrupted_lines r)
  | _ :: r => interrupted_lines r
  end.

(** The four counters of a tally. *)
Definition has_counts (d : gmap string Z) (s o k e : Z) : Prop :=
  d !! "success" = Some s /\ d !! "overwrite" = Some o /\
  d !! "skipped" = Some k /\ d !! "error" = Some e.

(** The call does not take the skip branch on [filename], and
    [filename] is not a directory: the file is absent, or it is a
    regular file and [overwrite] is set. *)
Definition downloads (filename : string) (overwrite : bool) (w : world) : Prop :=
  fs w !! filename = None \/
  (overwrite = true /\ exists old, fs w !! filename = Some (File old)).

(** The [href]s that the filter retains: those that end with one of
    the extensions. *)
Definition retained_hrefs (extensions hrefs : list string) : list string :=
  List.filter (fun h => existsb (endswith h) extensions) hrefs.

(** Joining references in order; the first exception ends it. *)
Fixpoint resolve_all (urljoin : string -> string -> outcome string) (url : string)
    (hrefs : list string) : outcome (list string) :=
  match hrefs with
  | [] => Return []
  | h :: rest =>
      match urljoin url h with
      | Raise e => Raise e
      | Return file =>
          match resolve_all urljoin url rest with
          | Raise e => Raise e
          | Return files => Return (file :: files)
          end
      end
  end.

(** The file names of the "[Interrupted]" lines, in order. *)
Fixpoint interrupted_names (l : list message) : list string :=
  match l with
  | [] => []
  | Interrupted filename :: r => filename :: interrupted_names r
  | _ :: r => interrupted_names r
  end.

End Notions.

(** ** The link filter as the specification words it *)

Module LinkFilterSpec.
Import Py.

(** The prefix of [s] before its first character that satisfies [stop]. *)
Fixpoint before_first (stop : ascii -> bool) (s : string) : string :=
  match s with
  | EmptyString => EmptyString
  | String c r => if stop c then EmptyString else String c (before_first stop r)
  end.

(** The suffix of [s] that starts at its first [c], or the empty string. *)
Fixpoint from_first (c : ascii) (s : string) : string :=
  match s with
  | EmptyString => EmptyString
  | String a r => if Ascii.eqb a c then s else from_first c r
  end.

(** The path component of an http(s) URL (RFC 3986, 3): what follows
    the authority, up to the first "?" or "#". *)
Definition url_path (u : string) : string :=
  let hier := before_first (fun c => Ascii.eqb c "?" || Ascii.eqb c "#") u in
  let after_scheme :=
    if startswith hier "http://" then slice_from 7 hier
    else if startswith hier "https://" then slice_from 8 hier
    else hier in
  from_first "/" after_scheme.

(** The filter as the specification words it: the path of the
    resolved URL ends with one of the extensions. *)
Definition resolved_path_matches (urljoin : string -> string -> outcome string)
    (url : string) (extensions : list string) (href : string) : bool :=
  match urljoin url href with
  | Return resolved => existsb (endswith (url_path resolved)) extensions
  | Raise _ => false
  end.

End LinkFilterSpec.

(** ** Concrete runs *)

Module Scenarios.
Import Py FileScraper.

Definition old_bytes : bytes := [x6f; x6c; x64].          (* b"old" *)
Definition ab : bytes := [x61; x62].                      (* b"ab" *)

(** A download folder "dl", empty. *)
Definition empty_folder : world :=
  {| fs := {[ "dl" := Dir ]}; reqs := []; procs := []; out := []; log := [] |}.

(** The folder with an earlier "a.pdf" in it. *)
Definition folder_with_old : world :=
  {| fs := {[ "dl" := Dir; "dl/a.pdf" := File old_bytes ]};
     reqs := []; procs := []; out := []; log := [] |}.

Definition four_kib (_ : string) : Z := 4096.

(** [urljoin] on the two kinds of reference that these runs use: an
    absolute http(s) URL is returned as it is, a plain file name is
    appended to a base that ends with "/". *)
Definition urljoin_plain (base ref : string) : outcome string :=
  Return (if startswith ref "http://" || startswith ref "https://"
          then ref else base ++ ref).

(** [os.makedirs] of a new folder whose parent is there. *)
Definition makedirs_leaf (p : string) (f : gmap string node)
  : outcome (gmap string node) :=
  match f !! p with
  | Some _ => Raise OSError
  | None => Return (<[p := Dir]> f)
  end.

Definition file_response (h : header) (cs : list bytes) (e : stream_end) : response :=
  {| content_length := h; chunks := cs; ending := e; anchors := [] |}.

Definition page (hrefs : list (option string)) : response :=
  {| content_length := CLAbsent; chunks := []; ending := StreamDone; anchors := hrefs |}.

(** A server that announces four bytes and breaks after two. *)
Definition net_breaks_after_two (_ : nat) (_ : string) (_ : bool) (_ : Z) : get_result :=
  GetOk (file_response (CLInt 4) [ab] (StreamFails "Connection broken")).

(** A server that announces two bytes and sends them. *)
Definition net_sends_two (_ : nat) (_ : string) (_ : bool) (_ : Z) : get_result :=
  GetOk (file_response (CLInt 2) [ab] StreamDone).

(** A chunked answer, without [Content-Length], that sends two bytes. *)
Definition net_chunked_two (_ : nat) (_ : string) (_ : bool) (_ : Z) : get_result :=
  GetOk (file_response CLAbsent [ab] StreamDone).

(** A chunked answer that breaks before its first chunk. *)
Definition net_chunked_breaks (_ : nat) (_ : string) (_ : bool) (_ : Z) : get_result :=
  GetOk (file_response CLAbsent [] (StreamFails "Connection broken")).

(** A server that refuses every connection. *)
Definition net_refused (_ : nat) (_ : string) (_ : bool) (_ : Z) : get_result :=
  GetRaises "Connection refused".

(** A page with two documents; every file request is refused. *)
Definition two_links : list (option string) := [Some "a.pdf"; Some "b.pdf"].

Definition net_page_then_refused (n : nat) (_ : string) (_ : bool) (_ : Z) : get_result :=
  match n with
  | O => GetOk (page two_links)
  | _ => GetRaises "Connection refused"
  end.

(** The same page; the user interrupts the first download after two
    of four bytes. *)
Definition net_page_then_interrupted (n : nat) (_ : string) (_ : bool) (_ : Z)
  : get_result :=
  match n with
  | O => GetOk (page two_links)
  | 1%nat => GetOk (file_response (CLInt 4) [ab] StreamInterrupted)
  | _ => GetOk (file_response (CLInt 2) [ab] StreamDone)
  end.


Definition complaint : bytes := [x45; x72; x72; x6f; x72].   (* b"Error" *)

Definition popen_complains (_ : list string) (f : gmap string node) : popen_result :=
  PopenExits [] complaint 1 f.


(** An output folder "out" that already holds "a.docx" and "a.md". *)
Definition converted_before : world :=
  {| fs := {[ "out" := Dir; "out/a.docx" := File old_bytes; "out/a.md" := File old_bytes ]};
     reqs := []; procs := []; out := []; log := [] |}.

Definition empty_out : world :=
  {| fs := {[ "out" := Dir ]}; reqs := []; procs := []; out := []; log := [] |}.

End Scenarios.

(** ** docx2md.py: the batch *)

Module Docx2MdBatch.
Import Py.

Section Batch.

Variable popen : list string -> gmap string node -> popen_result.

(** [glob.glob(pattern, recursive=...)] on the file system. *)
Variable glob : string -> bool -> gmap string node -> list string.

Definition get_docx_files (source_directory : string) (w : world) : list string :=
  glob (join (join source_directory "**") "*.docx") true (fs w).

(** The [for] statement of [main], on the list that [get_docx_files]
    returned: an exception that leaves [convert_to_md] ends the loop. *)
Fixpoint convert_each (pandoc : string) (docx_files : list string) (output : string)
    (overwrite verbose : bool) (w : world) : outcome unit * world :=
  match docx_files with
  | [] => (Return tt, w)
  | docx_file :: rest =>
      match Docx2Md.convert_to_md popen pandoc docx_file output overwrite verbose w with
      | (Return _, w) => convert_each pandoc rest output overwrite verbose w
      | (Raise e, w) => (Raise e, w)
      end
  end.

(** [main] from [if not args.pandoc:] on; [pandoc] is [args.pandoc],
    [None] when [shutil.which] found nothing.  The parsing of the
    arguments and [logging.basicConfig], which installs the handlers,
    come before and are not part of it. *)
Definition main (source output : string) (pandoc : option string)
    (verbose overwrite : bool) (w : world) : outcome unit * world :=
  match pandoc with
  | None | Some EmptyString =>
      (Return tt, logging ERROR "Pandoc executable not found." [] w)
  | Some pandoc_path =>
      convert_each pandoc_path (get_docx_files source w) output overwrite verbose w
  end.

End Batch.

End Docx2MdBatch.

(** ** Further notions *)

Module MoreNotions.
Import Py.

(** The same program, seen with another exit status. *)
Definition with_returncode (rc : Z)
    (popen : list string -> gmap string node -> popen_result)
  : list string -> gmap string node -> popen_result :=
  fun argv f =>
    match popen argv f with
    | PopenExits stdout stderr _ fs' => PopenExits stdout stderr rc fs'
    | PopenRaises e msg => PopenRaises e msg
    end.

(** The number of logging records of level [ERROR]. *)
Fixpoint error_records (l : list log_record) : nat :=
  match l with
  | [] => O
  | LogRecord ERROR _ _ :: r => S (error_records r)
  | _ :: r => error_records r
  end.

(** The path of a file that lies directly in a folder: the folder, a
    separator unless the folder is empty or ends with one, and the name
    of the file. *)
Definition in_folder (folder name : string) : string :=
  if String.eqb folder "" || endswith folder "/" then folder ++ name
  else folder ++ "/" ++ name.

(** The targets of the candidates in the project folder. *)
Definition targets (project_folder : string) (files : list string) : list string :=
  map (fun file => join project_folder (basename file)) files.

End MoreNotions.

Module MoreScenarios.
Import Py.

(** Pandoc that fails on every input and writes nothing. *)
Definition pandoc_fails (_ : list string) (f : gmap string node) : popen_result :=
  PopenExits [] Scenarios.complaint 2 f.

(** A program that exits with status 1 and is silent. *)
Definition silent_failure (_ : list string) (f : gmap string node) : popen_result :=
  PopenExits [] [] 1 f.

(** A program that cannot be started. *)
Definition not_found (_ : list string) (f : gmap string node) : popen_result :=
  PopenRaises OSError "No such file or directory".

(** [urljoin] that refuses an address with an open bracket with
    [ValueError], and otherwise joins as [Scenarios.urljoin_plain]. *)
Definition urljoin_brackets (url href : string) : outcome string :=
  if String.eqb href "http://[x.pdf" then Raise ValueError
  else Scenarios.urljoin_plain url href.


(** A source folder in which the search finds two documents. *)
Definition glob_two (_ : string) (_ : bool) (_ : gmap string node) : list string :=
  ["in/a.docx"; "in/sub/b.docx"].

End MoreScenarios.

(** * Properties *)

Import Py Notions LinkFilterSpec.

Ltac invert H := inversion H; subst; clear H.

(** Splitting on every test the code makes. *)
Ltac split_match :=
  match goal with
  | |- context [match ?x with _ => _ end] =>
      lazymatch x with
      | context [match _ with _ => _ end] => fail
      | _ => destruct x eqn:?
      end
  | H : context [match ?x with _ => _ end] |- _ =>
      lazymatch x with
      | context [match _ with _ => _ end] => fail
      | _ => destruct x eqn:?
      end
  end.

Ltac unfold_download :=
  unfold FileScraper.download_file, FileScraper.try_except_finally,
    FileScraper.try_block, FileScraper.except_clause, FileScraper.finally_clause,
    FileScraper.requests_get, FileScraper.os_path_getsize,
    os_remove, open_wb in *.

(** ** Strings *)

Lemma startswith_spec (s p : string) :
  startswith s p = true <-> exists t, s = p ++ t.
Proof.
  unfold startswith. revert s.
  induction p as [|c p IH]; intros s; simpl.
  - destruct s; split; eauto.
  - destruct s as [|a s]; simpl.
    + split; [discriminate | intros [t Ht]; discriminate].
    + destruct (ascii_dec c a) as [->|Hne].
      * rewrite IH. split; intros [t Ht]; exists t; [by rewrite Ht | by invert Ht].
      * split; [discriminate | intros [t Ht]; invert Ht; congruence].
Qed.

Lemma length_app (t e : string) :
  String.length (t ++ e) = (String.length t + String.length e)%nat.
Proof. induction t as [|c t IH]; simpl; [reflexivity | by rewrite IH]. Qed.

Lemma substring_all (e : string) : substring 0 (String.length e) e = e.
Proof. induction e as [|c e IH]; simpl; [reflexivity | by rewrite IH]. Qed.

Lemma substring_app_r (t e : string) :
  substring (String.length t) (String.length e) (t ++ e) = e.
Proof. induction t as [|c t IH]; simpl; [apply substring_all | exact IH]. Qed.

Lemma substring_split (n : nat) (s : string) :
  (n <= String.length s)%nat ->
  s = substring 0 n s ++ substring n (String.length s - n) s.
Proof.
  revert s. induction n as [|n IH]; intros s Hn.
  - rewrite Nat.sub_0_r, substring_all. by destruct s.
  - destruct s as [|c s]; simpl in *; [lia|].
    change (String c s = String c (substring 0 n s ++ substring n (String.length s - n) s)).
    f_equal. apply IH. lia.
Qed.

Lemma endswith_spec (s e : string) :
  endswith s e = true <-> exists t, s = t ++ e.
Proof.
  unfold endswith. rewrite andb_true_iff, Nat.leb_le, String.eqb_eq. split.
  - intros [Hle Hsub].
    exists (substring 0 (String.length s - String.length e) s).
    pose proof (substring_split (String.length s - String.length e) s) as Hsp.
    replace (String.length s - (String.length s - String.length e))%nat
      with (String.length e) in Hsp by lia.
    rewrite Hsub in Hsp. apply Hsp. lia.
  - intros [t ->]. rewrite length_app. split; [lia|].
    replace (String.length t + String.length e - String.length e)%nat
      with (String.length t) by lia.
    apply substring_app_r.
Qed.

(** ** The primitives of the world *)

Lemma exists_true (p : string) (w : world) (n : node) :
  fs w !! p = Some n -> os_path_exists p w = true.
Proof. unfold os_path_exists. by intros ->. Qed.

Lemma exists_false (p : string) (w : world) :
  fs w !! p = None -> os_path_exists p w = false.
Proof. unfold os_path_exists. by intros ->. Qed.

Lemma interrupted_lines_app (l1 l2 : list message) :
  interrupted_lines (l1 ++ l2)%list = (interrupted_lines l1 + interrupted_lines l2)%nat.
Proof.
  induction l1 as [|m l1 IH]; simpl; [reflexivity|].
  destruct m; simpl; lia.
Qed.

(** ** One download *)

Section DownloadFile.
Import FileScraper.

Variable net : nat -> string -> bool -> Z -> get_result.
Variable dir_size : string -> Z.

Abbreviation download_file := (download_file net dir_size).
Abbreviation try_except_finally := (try_except_finally net dir_size).
Abbreviation finally_clause := (finally_clause dir_size).

Lemma write_chunks_fs_other filename verbose total cs written w g :
  g <> filename ->
  fs (write_chunks filename verbose total cs written w) !! g = fs w !! g.
Proof.
  intros Hne. revert written w.
  induction cs as [|data cs IH]; intros written w; simpl; [reflexivity|].
  rewrite IH. destruct verbose; simpl; by rewrite lookup_insert_ne.
Qed.

Lemma write_chunks_file filename verbose total cs written w :
  fs w !! filename = Some (File written) ->
  fs (write_chunks filename verbose total cs written w) !! filename
  = Some (File (written ++ concat cs)%list).
Proof.
  revert written w.
  induction cs as [|data cs IH]; intros written w Hw; simpl.
  - by rewrite app_nil_r.
  - rewrite IH; [by rewrite <- app_assoc|].
    destruct verbose; simpl; by rewrite lookup_insert_eq.
Qed.

Lemma write_chunks_traces filename verbose total cs written w :
  let w' := write_chunks filename verbose total cs written w in
  reqs w' = reqs w /\ procs w' = procs w /\ log w' = log w /\
  interrupted_lines (out w') = interrupted_lines (out w) /\
  exists new, out w' = (out w ++ new)%list.
Proof.
  revert written w.
  induction cs as [|data cs IH]; intros written w; simpl.
  - repeat split; try reflexivity. exists []. by rewrite app_nil_r.
  - match goal with |- context [write_chunks _ _ _ _ _ ?w1] =>
      destruct (IH (written ++ data)%list w1) as (Hr & Hp & Hl & Hi & new & Ho)
    end.
    rewrite Hr, Hp, Hl, Hi, Ho.
    destruct verbose; simpl; repeat split; try reflexivity.
    + rewrite interrupted_lines_app. simpl. lia.
    + eexists. by rewrite <- app_assoc.
    + by exists new.
Qed.

(** The [finally] block, case by case. *)

Lemma finally_absent filename total_size r w :
  fs w !! filename = None ->
  finally_clause filename total_size r w = (r, w).
Proof. intros H. unfold FileScraper.finally_clause. by rewrite (exists_false _ _ H). Qed.

Lemma finally_unbound filename r w n :
  fs w !! filename = Some n ->
  finally_clause filename None r w = (Raise UnboundLocalError, w).
Proof.
  intros H. unfold FileScraper.finally_clause, os_path_getsize.
  rewrite (exists_true _ _ _ H), H. by destruct n.
Qed.

Lemma finally_mismatch filename total r w d :
  fs w !! filename = Some (File d) ->
  Z.of_nat (List.length d) <> total ->
  finally_clause filename (Some total) r w
  = (r, print (Deleted filename) (set_fs (delete filename (fs w)) w)).
Proof.
  intros H Hne. unfold FileScraper.finally_clause, os_path_getsize, os_remove.
  rewrite (exists_true _ _ _ H), H.
  destruct (Z.eqb_spec (Z.of_nat (List.length d)) total); [contradiction | reflexivity].
Qed.

Lemma finally_match filename total r w d :
  fs w !! filename = Some (File d) ->
  Z.of_nat (List.length d) = total ->
  finally_clause filename (Some total) r w = (r, w).
Proof.
  intros H He. unfold FileScraper.finally_clause, os_path_getsize.
  rewrite (exists_true _ _ _ H), H.
  destruct (Z.eqb_spec (Z.of_nat (List.length d)) total); [reflexivity | contradiction].
Qed.

(** The world after the stream of [resp] was written to [filename]. *)
Lemma streamed_file filename verbose total resp w :
  let w' := write_chunks filename verbose total (chunks resp) []
              (set_fs (<[filename := File []]> (fs w)) w) in
  fs w' !! filename = Some (File (concat (chunks resp))).
Proof.
  simpl. rewrite (write_chunks_file _ _ _ _ []); [reflexivity|].
  simpl. by rewrite lookup_insert_eq.
Qed.

(** [open] succeeds on a path that is not a directory. *)
Lemma open_wb_ok filename w :
  fs w !! filename <> Some Dir ->
  open_wb filename w = Return (set_fs (<[filename := File []]> (fs w)) w).
Proof.
  intros H. unfold open_wb. destruct (fs w !! filename) as [[d|]|]; try reflexivity.
  contradiction.
Qed.

Lemma downloads_not_dir filename overwrite w :
  downloads filename overwrite w -> fs w !! filename <> Some Dir.
Proof. intros [H | (_ & old & H)]; rewrite H; discriminate. Qed.

(** When the call does not skip, it is the [try] statement, run after
    the "[Overwriting]" line if the file was there. *)
Lemma download_file_downloads url filename verbose overwrite timeout w :
  downloads filename overwrite w ->
  exists w0, download_file url filename verbose overwrite timeout w
             = try_except_finally url filename verbose timeout w0
    /\ fs w0 = fs w /\ reqs w0 = reqs w /\ procs w0 = procs w /\ log w0 = log w
    /\ interrupted_lines (out w0) = interrupted_lines (out w)
    /\ exists new, out w0 = (out w ++ new)%list.
Proof.
  intros [H | (-> & old & H)]; unfold FileScraper.download_file.
  - rewrite (exists_false _ _ H). exists w. repeat split; try reflexivity.
    exists []. by rewrite app_nil_r.
  - rewrite (exists_true _ _ _ H). eexists. split; [reflexivity|].
    simpl. repeat split; try reflexivity.
    + rewrite interrupted_lines_app. simpl. lia.
    + by eexists.
Qed.

(** A request that is answered: the stream is written to the file, the
    [except] clause turns a failed stream into "error", and the
    [finally] block runs with [total_size] bound. *)
Lemma try_answered url filename verbose timeout w resp total :
  fs w !! filename <> Some Dir ->
  net (List.length (reqs w)) url true timeout = GetOk resp ->
  int_content_length (content_length resp) = Return total ->
  exists r ws,
    try_except_finally url filename verbose timeout w
    = finally_clause filename (Some total) r ws
    /\ fs ws !! filename = Some (File (concat (chunks resp)))
    /\ (forall g, g <> filename -> fs ws !! g = fs w !! g)
    /\ reqs ws = (reqs w ++ [url])%list
    /\ r = match ending resp with
           | StreamDone => Return "success"
           | StreamFails _ => Return "error"
           | StreamInterrupted => Raise KeyboardInterrupt
           end.
Proof.
  intros Hdir Hnet Hint.
  unfold FileScraper.try_except_finally, try_block, requests_get.
  rewrite Hnet, Hint. rewrite open_wb_ok by exact Hdir.
  match goal with |- context [write_chunks ?f ?v ?t ?cs [] ?w1] =>
    set (ws := write_chunks f v t cs [] w1);
    pose proof (streamed_file f v t resp
                  {| fs := fs w; reqs := (reqs w ++ [url])%list; procs := procs w;
                     out := out w; log := log w |}) as Hfile;
    pose proof (write_chunks_traces f v t cs [] w1) as (Hr & _);
    pose proof (fun g => write_chunks_fs_other f v t cs [] w1 g) as Hother
  end.
  simpl in Hfile, Hr, Hother. fold ws in Hfile, Hr, Hother.
  assert (Hother' : forall g, g <> filename -> fs ws !! g = fs w !! g).
  { intros g Hg. rewrite Hother by exact Hg. by rewrite lookup_insert_ne. }
  destruct (ending resp) as [|err|]; simpl.
  - eexists _, _. split; [reflexivity|].
    destruct verbose; simpl; auto.
  - eexists _, _. split; [reflexivity|]. simpl. auto.
  - eexists _, _. split; [reflexivity|]. auto.
Qed.

(** [download_file] returns "skipped", "success" or "error". *)
Lemma download_file_results url filename verbose overwrite timeout w r w' :
  download_file url filename verbose overwrite timeout w = (Return r, w') ->
  r = "skipped" \/ r = "success" \/ r = "error".
Proof.
  unfold_download. intros H.
  repeat (split_match; simplify_eq/=); auto.
Qed.

(** [download_file] prints no "[Interrupted]" line. *)
Lemma download_file_interrupted_lines url filename verbose overwrite timeout w :
  interrupted_lines (out (snd (download_file url filename verbose overwrite timeout w)))
  = interrupted_lines (out w).
Proof.
  unfold_download.
  repeat (split_match; simplify_eq/=);
    repeat match goal with
    | |- context [write_chunks ?f ?v ?t ?cs ?wr ?w1] =>
        let Hi := fresh "Hi" in
        pose proof (write_chunks_traces f v t cs wr w1) as (_ & _ & _ & Hi & _);
        simpl in Hi; generalize dependent (write_chunks f v t cs wr w1); intros
    end;
    simpl; rewrite ?interrupted_lines_app in *; simpl in *; lia.
Qed.

End DownloadFile.

(** ** The names of the interrupted downloads *)

Lemma interrupted_names_app (l1 l2 : list message) :
  interrupted_names (l1 ++ l2)%list
  = (interrupted_names l1 ++ interrupted_names l2)%list.
Proof.
  induction l1 as [|m l1 IH]; simpl; [reflexivity|].
  destruct m; simpl; by rewrite ?IH.
Qed.

Lemma write_chunks_names filename verbose total cs written w :
  interrupted_names (out (FileScraper.write_chunks filename verbose total cs written w))
  = interrupted_names (out w).
Proof.
  revert written w. induction cs as [|data cs IH]; intros written w; simpl;
    [reflexivity|].
  rewrite IH. destruct verbose; simpl; [|reflexivity].
  rewrite interrupted_names_app. simpl. apply app_nil_r.
Qed.

(** [download_file] prints no "[Interrupted]" line. *)
Lemma download_file_interrupted_names net dir_size url filename verbose overwrite
    timeout w :
  interrupted_names
    (out (snd (FileScraper.download_file net dir_size url filename verbose overwrite
                 timeout w)))
  = interrupted_names (out w).
Proof.
  unfold_download.
  repeat (split_match; simplify_eq/=);
    repeat match goal with
    | |- context [FileScraper.write_chunks ?f ?v ?t ?cs ?wr ?w1] =>
        let Hi := fresh "Hi" in
        pose proof (write_chunks_names f v t cs wr w1) as Hi;
        simpl in Hi; generalize dependent (FileScraper.write_chunks f v t cs wr w1);
        intros
    end;
    simpl; rewrite ?interrupted_names_app in *; simpl in *;
    rewrite ?app_nil_r in *; congruence.
Qed.

(** ** The batch loop *)

Lemma initial_counts : has_counts FileScraper.initial_results 0 0 0 0.
Proof. repeat split. Qed.

Lemma increment_counts (d : gmap string Z) (r : string) (s o k e : Z) :
  has_counts d s o k e ->
  r = "skipped" \/ r = "success" \/ r = "error" ->
  exists d' s' k' e',
    FileScraper.increment d r = Return d' /\ has_counts d' s' o k' e' /\
    s' + k' + e' = s + k + e + 1.
Proof.
  intros (Hs & Ho & Hk & He) [-> | [-> | ->]]; unfold FileScraper.increment.
  - rewrite Hk. exists (<["skipped" := k + 1]> d), s, (k + 1), e.
    split; [reflexivity|]. split; [|lia].
    repeat split; by simplify_map_eq.
  - rewrite Hs. exists (<["success" := s + 1]> d), (s + 1), k, e.
    split; [reflexivity|]. split; [|lia].
    repeat split; by simplify_map_eq.
  - rewrite He. exists (<["error" := e + 1]> d), s, k, (e + 1).
    split; [reflexivity|]. split; [|lia].
    repeat split; by simplify_map_eq.
Qed.

Lemma increment_counts_mono (d : gmap string Z) (r : string) (s o k e : Z) :
  has_counts d s o k e ->
  r = "skipped" \/ r = "success" \/ r = "error" ->
  exists d' s' k' e',
    FileScraper.increment d r = Return d' /\ has_counts d' s' o k' e' /\
    s' + k' + e' = s + k + e + 1 /\ s <= s' /\ k <= k' /\ e <= e'.
Proof.
  intros (Hs & Ho & Hk & He) [-> | [-> | ->]]; unfold FileScraper.increment.
  - rewrite Hk. exists (<["skipped" := k + 1]> d), s, (k + 1), e.
    split; [reflexivity|]. split; [|lia].
    repeat split; by simplify_map_eq.
  - rewrite Hs. exists (<["success" := s + 1]> d), (s + 1), k, e.
    split; [reflexivity|]. split; [|lia].
    repeat split; by simplify_map_eq.
  - rewrite He. exists (<["error" := e + 1]> d), s, k, (e + 1).
    split; [reflexivity|]. split; [|lia].
    repeat split; by simplify_map_eq.
Qed.

(** The handler prints the "[Interrupted]" line of the file and counts
    one error. *)
Lemma interrupt_handler_names filename d w d' w' s o k e :
  has_counts d s o k e ->
  FileScraper.interrupt_handler filename d w = (Return d', w') ->
  has_counts d' s o k (e + 1) /\
  interrupted_names (out w') = (interrupted_names (out w) ++ [filename])%list.
Proof.
  intros Hc. unfold FileScraper.interrupt_handler, os_remove.
  destruct Hc as (Hs & Ho & Hk & He).
  unfold FileScraper.increment. rewrite He.
  intros H. repeat (split_match; simplify_eq/=).
  all: split; [repeat split; by simplify_map_eq|].
  all: rewrite ?interrupted_names_app; simpl; by rewrite ?app_nil_r.
Qed.

Section Batch.
Import FileScraper.

Variable net : nat -> string -> bool -> Z -> get_result.
Variable urljoin : string -> string -> outcome string.
Variable dir_size : string -> Z.
Variable makedirs : string -> gmap string node -> outcome (gmap string node).

Abbreviation download_file := (download_file net dir_size).
Abbreviation download_loop := (download_loop net dir_size).
Abbreviation download_files := (download_files net urljoin dir_size makedirs).

(** The handler prints one "[Interrupted]" line and counts one error. *)
Lemma interrupt_handler_counts filename d w d' w' s o k e :
  has_counts d s o k e ->
  interrupt_handler filename d w = (Return d', w') ->
  has_counts d' s o k (e + 1) /\
  interrupted_lines (out w') = S (interrupted_lines (out w)).
Proof.
  intros Hc. unfold interrupt_handler, os_remove.
  destruct (increment_counts d "error" s o k e Hc) as (d1 & s1 & k1 & e1 & Hinc & _);
    [auto|].
  destruct Hc as (Hs & Ho & Hk & He).
  unfold increment in *. rewrite He in *. simplify_eq.
  intros H. repeat (split_match; simplify_eq/=).
  all: split; [repeat split; by simplify_map_eq|].
  all: rewrite ?interrupted_lines_app; simpl; lia.
Qed.

(** The tally after the loop: the overwrite counter is untouched, the
    others grow by one per candidate that was processed. *)
Lemma download_loop_counts files project_folder verbose overwrite timeout :
  forall d w d' w' s o k e,
    has_counts d s o k e ->
    download_loop files project_folder verbose overwrite timeout d w = (Return d', w') ->
    exists s' k' e',
      has_counts d' s' o k' e' /\
      s' + k' + e' <= s + k + e + Z.of_nat (List.length files) /\
      (interrupted_lines (out w') = interrupted_lines (out w) ->
       s' + k' + e' = s + k + e + Z.of_nat (List.length files)).
Proof.
  induction files as [|file rest IH]; intros d w d' w' s o k e Hc Hrun.
  - simpl in Hrun. simplify_eq. exists s, k, e. split; [exact Hc|]. simpl. lia.
  - cbn [FileScraper.download_loop] in Hrun.
    pose proof (download_file_interrupted_lines net dir_size file
                  (join project_folder (basename file)) verbose overwrite timeout w) as Hlines.
    destruct (download_file file (join project_folder (basename file))
                verbose overwrite timeout w) as [[r | ex] w1] eqn:Hdl; simpl in Hlines.
    + destruct (increment_counts d r s o k e Hc
                  (download_file_results _ _ _ _ _ _ _ _ _ _ Hdl))
        as (d1 & s1 & k1 & e1 & Hinc & Hc1 & Hsum).
      rewrite Hinc in Hrun.
      destruct (IH _ _ _ _ _ _ _ _ Hc1 Hrun) as (s' & k' & e' & Hc' & Hle & Heq).
      exists s', k', e'. split; [exact Hc'|].
      rewrite Hlines in Heq. cbn [List.length]. split; [lia|].
      intros Hn. specialize (Heq Hn). lia.
    + destruct ex; simplify_eq.
      destruct (interrupt_handler_counts _ _ _ _ _ _ _ _ _ Hc Hrun) as (Hc' & Hn).
      exists s, k, (e + 1). split; [exact Hc'|].
      cbn [List.length]. split; [lia|].
      rewrite Hn, Hlines. lia.
Qed.

(** A run of [download_files] that returns went through the folder
    test, the page request, the filter, the loop and the final print. *)
Lemma download_files_returns url extensions project_folder create_folder
    verbose overwrite timeout w w' :
  download_files url extensions project_folder create_folder verbose overwrite timeout w
  = (Return tt, w') ->
  exists resp files w1 d w2 s o k e,
    net (List.length (reqs w)) url false timeout = GetOk resp /\
    files_to_download urljoin url extensions (anchors resp) = Return files /\
    interrupted_lines (out w1) = interrupted_lines (out w) /\
    download_loop files project_folder verbose overwrite timeout initial_results w1
    = (Return d, w2) /\
    has_counts d s o k e /\
    w' = print (DownloadResults s o k e) w2.
Proof.
  unfold FileScraper.download_files, requests_get, print_results, getitem.
  intros H.
  repeat (split_match; simplify_eq/=).
  all: eexists _, _, _, _, _, _, _, _, _.
  all: (split; [reflexivity|]); (split; [eassumption|]).
  all: (split; [|split; [eassumption|]; split; [repeat split; eassumption|reflexivity]]).
  all: simpl; rewrite ?interrupted_lines_app; simpl; lia.
Qed.

End Batch.

(** ** The validators *)

(** C8. [valid_url] raises [ArgumentTypeError] exactly when its
    argument starts neither with "http://" nor with "https://", and
    otherwise returns the argument unchanged; [valid_extension] raises
    exactly when its argument does not start with ".", and otherwise
    returns it unchanged.  Both are functions of the string alone: they
    take no world and give none back, so they touch neither the network
    nor the file system. *)
Theorem validators_reject_exactly :
  (forall s : string,
     let ok := (exists t, s = "http://" ++ t) \/ (exists t, s = "https://" ++ t) in
     ((exists msg, FileScraper.valid_url s = Raise (ArgumentTypeError msg)) <-> ~ ok) /\
     (ok -> FileScraper.valid_url s = Return s) /\
     (forall e, FileScraper.valid_url s = Raise e -> exists msg, e = ArgumentTypeError msg)) /\
  (forall s : string,
     let ok := exists t, s = "." ++ t in
     ((exists msg, FileScraper.valid_extension s = Raise (ArgumentTypeError msg)) <-> ~ ok) /\
     (ok -> FileScraper.valid_extension s = Return s) /\
     (forall e, FileScraper.valid_extension s = Raise e -> exists msg, e = ArgumentTypeError msg)).
Proof.
  split; intros s ok; subst ok.
  - unfold FileScraper.valid_url.
    rewrite <- !startswith_spec.
    destruct (startswith s "http://"), (startswith s "https://"); simpl.
    all: repeat split; try (intros [msg ?]); try discriminate; eauto.
    all: try (intros [? | ?]; discriminate); try tauto.
    all: try (intros e He; invert He; eauto).
    all: intros H; exfalso; apply H; auto.
  - unfold FileScraper.valid_extension.
    rewrite <- startswith_spec.
    destruct (startswith s "."); simpl.
    all: repeat split; try (intros [msg ?]); try discriminate; eauto.
    all: try (intros e He; invert He; eauto).
    intros H; exfalso; apply H; auto.
Qed.

Lemma validators_reject_exactly_witness :
  FileScraper.valid_url "https://example.com/" = Return "https://example.com/" /\
  FileScraper.valid_extension ".pdf" = Return ".pdf".
Proof.
  split.
  - apply (proj1 (proj2 (proj1 validators_reject_exactly "https://example.com/"))).
    right. exists "example.com/". reflexivity.
  - apply (proj1 (proj2 (proj2 validators_reject_exactly ".pdf"))).
    exists "pdf". reflexivity.
Defined.

(** ** The link filter *)

Lemma any_endswith_href (h : string) (extensions : list string) :
  FileScraper.any_endswith (Some h) extensions = Return (existsb (endswith h) extensions).
Proof.
  induction extensions as [|e es IH]; simpl; [reflexivity|].
  destruct (endswith h e); simpl; [reflexivity | exact IH].
Qed.

(** C7, as the code has it. On a page whose anchors all carry an
    [href], [download_files] retains exactly the links whose [href], as
    written in the page, ends with one of the requested extensions, in
    document order: the test is made on the [href] string before it is
    resolved, not on the path of the resolved URL, and every other link
    is excluded.  The retained [href]s are resolved against the page URL
    in that order, an exception of [urljoin] ending the run, and the
    resolved URLs are the candidates on which the download loop runs. *)
Theorem files_to_download_filters_on_href :
  forall (urljoin : string -> string -> outcome string) (url : string)
         (extensions hrefs : list string),
    FileScraper.files_to_download urljoin url extensions (map Some hrefs)
    = resolve_all urljoin url (retained_hrefs extensions hrefs)
    /\ (forall h, In h hrefs ->
          (In h (retained_hrefs extensions hrefs)
           <-> exists e t, In e extensions /\ h = t ++ e))
    /\ (forall files,
          resolve_all urljoin url (retained_hrefs extensions hrefs) = Return files ->
          Forall2 (fun h file => urljoin url h = Return file)
            (retained_hrefs extensions hrefs) files
          /\ forall net dir_size makedirs project_folder create_folder verbose overwrite
                    timeout w resp,
               os_path_exists project_folder w = true ->
               net (List.length (reqs w)) url false timeout = FileScraper.GetOk resp ->
               FileScraper.anchors resp = map Some hrefs ->
               FileScraper.download_files net urljoin dir_size makedirs url extensions
                 project_folder create_folder verbose overwrite timeout w
               = match
                   FileScraper.download_loop net dir_size files project_folder verbose
                     overwrite timeout FileScraper.initial_results
                     (let w1 := {| fs := fs w; reqs := (reqs w ++ [url])%list;
                                   procs := procs w; out := out w; log := log w |} in
                      if verbose
                      then print (FilesToBeDownloaded (map basename files)) w1
                      else w1)
                 with
                 | (Raise e, w3) => (Raise e, w3)
                 | (Return d, w3) => FileScraper.print_results d w3
                 end).
Proof.
  intros urljoin url extensions hrefs.
  assert (Hfilter : FileScraper.files_to_download urljoin url extensions (map Some hrefs)
                    = resolve_all urljoin url (retained_hrefs extensions hrefs)).
  { unfold retained_hrefs. induction hrefs as [|h hs IH]; simpl; [reflexivity|].
    rewrite any_endswith_href.
    destruct (existsb (endswith h) extensions); simpl; [|exact IH].
    destruct (urljoin url h); [|reflexivity]. by rewrite IH. }
  split; [exact Hfilter|]. split.
  - intros h Hin. unfold retained_hrefs. rewrite filter_In, existsb_exists. split.
    + intros (_ & e & He & Hend). apply endswith_spec in Hend as [t ->]. eauto.
    + intros (e & t & He & ->). split; [exact Hin|].
      exists e. split; [exact He|]. apply endswith_spec. eauto.
  - intros files Hres. split.
    + clear Hfilter. revert files Hres.
      induction (retained_hrefs extensions hrefs) as [|h hs IH]; intros files Hres;
        simpl in Hres.
      * invert Hres. constructor.
      * destruct (urljoin url h) as [file|] eqn:Hh; [|discriminate].
        destruct (resolve_all urljoin url hs) as [files'|]; [|discriminate].
        invert Hres. constructor; auto.
    + intros net dir_size makedirs project_folder create_folder verbose overwrite
        timeout w resp Hex Hnet Hanchors.
      unfold FileScraper.download_files, FileScraper.requests_get.
      rewrite Hex. cbn [negb]. rewrite Hnet, Hanchors, Hfilter, Hres. reflexivity.
Qed.

Lemma files_to_download_filters_on_href_witness :
  In "a.pdf" (retained_hrefs [".pdf"] ["a.pdf"; "b.txt"]).
Proof.
  apply (proj1 (proj2 (files_to_download_filters_on_href Scenarios.urljoin_plain
                         "http://example.com/" [".pdf"] ["a.pdf"; "b.txt"])) "a.pdf").
  - left. reflexivity.
  - exists ".pdf", "a". split; [left; reflexivity | reflexivity].
Defined.

(** The sentence of the specification fails on a link with a query
    string: the path of the resolved URL ends with ".pdf", the [href]
    does not, and the link is left out. *)
Lemma resolved_path_is_not_the_test :
  resolved_path_matches Scenarios.urljoin_plain "http://example.com/docs/" [".pdf"]
    "http://example.com/files/a.pdf?download=1" = true /\
  FileScraper.files_to_download Scenarios.urljoin_plain "http://example.com/docs/" [".pdf"]
    [Some "http://example.com/files/a.pdf?download=1"] = Return [].
Proof. split; reflexivity. Qed.

(** And in the other direction: a link whose query string ends with
    ".pdf" is retained although the path of its URL is "/view". *)
Lemma href_suffix_retains_non_matching_path :
  resolved_path_matches Scenarios.urljoin_plain "http://example.com/docs/" [".pdf"]
    "http://example.com/view?name=a.pdf" = false /\
  FileScraper.files_to_download Scenarios.urljoin_plain "http://example.com/docs/" [".pdf"]
    [Some "http://example.com/view?name=a.pdf"]
  = Return ["http://example.com/view?name=a.pdf"].
Proof. split; reflexivity. Qed.

(** ** Downloads: size check, missing header, the tally *)

Section Downloads.
Import FileScraper.

Variable net : nat -> string -> bool -> Z -> get_result.
Variable urljoin : string -> string -> outcome string.
Variable dir_size : string -> Z.
Variable makedirs : string -> gmap string node -> outcome (gmap string node).

Abbreviation download_file := (download_file net dir_size).
Abbreviation download_loop := (download_loop net dir_size).
Abbreviation download_files := (download_files net urljoin dir_size makedirs).

(** A call that does not skip and whose request is answered: what
    [download_file] gives when the bytes written differ from the
    expected size, and when they agree. *)
Lemma answered_mismatch url filename verbose overwrite timeout w resp total :
  downloads filename overwrite w ->
  net (List.length (reqs w)) url true timeout = GetOk resp ->
  int_content_length (content_length resp) = Return total ->
  Z.of_nat (List.length (concat (chunks resp))) <> total ->
  exists w',
    download_file url filename verbose overwrite timeout w
    = (match ending resp with
       | StreamDone => Return "success"
       | StreamFails _ => Return "error"
       | StreamInterrupted => Raise KeyboardInterrupt
       end, w')
    /\ fs w' !! filename = None
    /\ (forall g, g <> filename -> fs w' !! g = fs w !! g)
    /\ reqs w' = (reqs w ++ [url])%list
    /\ In (Deleted filename) (out w').
Proof.
  intros Hd Hnet Hint Hne.
  destruct (download_file_downloads net dir_size url filename verbose overwrite timeout w Hd)
    as (w0 & -> & Hfs & Hreqs & _).
  destruct (try_answered net dir_size url filename verbose timeout w0 resp total)
    as (r & ws & -> & Hfile & Hother & Hr & ->).
  { rewrite Hfs. eapply downloads_not_dir, Hd. }
  { by rewrite Hreqs. }
  { exact Hint. }
  rewrite (finally_mismatch dir_size _ _ _ _ _ Hfile Hne).
  eexists. split; [reflexivity|]. simpl.
  rewrite lookup_delete_eq, Hr, Hreqs. repeat split; try reflexivity.
  - intros g Hg. rewrite lookup_delete_ne by congruence.
    rewrite Hother by exact Hg. by rewrite Hfs.
  - apply in_or_app. right. by left.
Qed.

Lemma answered_match url filename verbose overwrite timeout w resp total :
  downloads filename overwrite w ->
  net (List.length (reqs w)) url true timeout = GetOk resp ->
  int_content_length (content_length resp) = Return total ->
  Z.of_nat (List.length (concat (chunks resp))) = total ->
  exists w',
    download_file url filename verbose overwrite timeout w
    = (match ending resp with
       | StreamDone => Return "success"
       | StreamFails _ => Return "error"
       | StreamInterrupted => Raise KeyboardInterrupt
       end, w')
    /\ fs w' !! filename = Some (File (concat (chunks resp)))
    /\ (forall g, g <> filename -> fs w' !! g = fs w !! g)
    /\ reqs w' = (reqs w ++ [url])%list.
Proof.
  intros Hd Hnet Hint He.
  destruct (download_file_downloads net dir_size url filename verbose overwrite timeout w Hd)
    as (w0 & -> & Hfs & Hreqs & _).
  destruct (try_answered net dir_size url filename verbose timeout w0 resp total)
    as (r & ws & -> & Hfile & Hother & Hr & ->).
  { rewrite Hfs. eapply downloads_not_dir, Hd. }
  { by rewrite Hreqs. }
  { exact Hint. }
  rewrite (finally_match dir_size _ _ _ _ _ Hfile He).
  eexists. split; [reflexivity|].
  rewrite Hr, Hreqs. repeat split; try assumption.
  intros g Hg. rewrite Hother by exact Hg. by rewrite Hfs.
Qed.

(** The loop on a single candidate whose download returns "success". *)
Lemma download_loop_single_success url project_folder verbose overwrite timeout w w' :
  download_file url (join project_folder (basename url)) verbose overwrite timeout w
  = (Return "success", w') ->
  exists d,
    download_loop [url] project_folder verbose overwrite timeout initial_results w
    = (Return d, w') /\ has_counts d 1 0 0 0.
Proof.
  intros H. cbn [FileScraper.download_loop]. rewrite H.
  eexists. split; [reflexivity|]. repeat split.
Qed.

(** C2. In every call of [download_file] that does not skip and whose
    request is answered with a response that advertises a
    [Content-Length], whether the stream then completes, fails or is
    interrupted: the file on disk holds the bytes that the stream
    delivered, and if their number differs from the advertised value,
    the file is deleted and not kept. *)
Theorem size_mismatch_deletes :
  forall url filename verbose overwrite timeout w resp advertised,
    downloads filename overwrite w ->
    net (List.length (reqs w)) url true timeout = GetOk resp ->
    content_length resp = CLInt advertised ->
    Z.of_nat (List.length (concat (chunks resp))) <> advertised ->
    fs (snd (download_file url filename verbose overwrite timeout w)) !! filename = None
    /\ In (Deleted filename)
         (out (snd (download_file url filename verbose overwrite timeout w))).
Proof.
  intros url filename verbose overwrite timeout w resp advertised Hd Hnet Hcl Hne.
  destruct (answered_mismatch url filename verbose overwrite timeout w resp advertised
              Hd Hnet) as (w' & -> & Hnone & _ & _ & Hin);
    [by rewrite Hcl | exact Hne |].
  simpl. by split.
Qed.

(** C9. When the response carries no [Content-Length] and the stream
    completes with a non-empty body, [download_file] returns "success"
    and its [finally] block has deleted the file: the expected size is 0
    and the file is not empty.  The batch loop counts the call as a
    success although no file is on disk. *)
Theorem missing_content_length_deletes_download :
  forall url filename verbose overwrite timeout w resp,
    downloads filename overwrite w ->
    net (List.length (reqs w)) url true timeout = GetOk resp ->
    content_length resp = CLAbsent ->
    ending resp = StreamDone ->
    concat (chunks resp) <> [] ->
    (exists w',
       download_file url filename verbose overwrite timeout w = (Return "success", w')
       /\ fs w' !! filename = None
       /\ In (Deleted filename) (out w'))
    /\ forall project_folder,
         filename = join project_folder (basename url) ->
         exists d w',
           download_loop [url] project_folder verbose overwrite timeout initial_results w
           = (Return d, w')
           /\ has_counts d 1 0 0 0
           /\ fs w' !! filename = None.
Proof.
  intros url filename verbose overwrite timeout w resp Hd Hnet Habsent Hdone Hbody.
  assert (Hne : Z.of_nat (List.length (concat (chunks resp))) <> 0).
  { destruct (concat (chunks resp)); [contradiction | simpl; lia]. }
  destruct (answered_mismatch url filename verbose overwrite timeout w resp 0 Hd Hnet)
    as (w' & Hrun & Hnone & _ & _ & Hin); [by rewrite Habsent | exact Hne |].
  rewrite Hdone in Hrun. split.
  - exists w'. auto.
  - intros project_folder ->.
    destruct (download_loop_single_success _ _ _ _ _ _ _ Hrun) as (d & Hloop & Hc).
    exists d, w'. auto.
Qed.

(** C10. [download_file] returns "skipped", "success" or "error" and
    never "overwrite"; so the Overwrite count of the tally that
    [download_files] prints is 0 in every run that prints it; and a
    download that replaces an existing file returns "success", which is
    the counter that the loop increments for it. *)
Theorem overwrite_is_never_counted :
  (forall url filename verbose overwrite timeout w r w',
     download_file url filename verbose overwrite timeout w = (Return r, w') ->
     (r = "skipped" \/ r = "success" \/ r = "error") /\ r <> "overwrite")
  /\
  (forall url extensions project_folder create_folder verbose overwrite timeout w w',
     download_files url extensions project_folder create_folder verbose overwrite timeout w
     = (Return tt, w') ->
     exists w2 s k e, w' = print (DownloadResults s 0 k e) w2)
  /\
  (forall url project_folder verbose timeout w resp total old,
     fs w !! join project_folder (basename url) = Some (File old) ->
     net (List.length (reqs w)) url true timeout = GetOk resp ->
     int_content_length (content_length resp) = Return total ->
     ending resp = StreamDone ->
     Z.of_nat (List.length (concat (chunks resp))) = total ->
     exists d w',
       download_file url (join project_folder (basename url)) verbose true timeout w
       = (Return "success", w')
       /\ fs w' !! join project_folder (basename url) = Some (File (concat (chunks resp)))
       /\ download_loop [url] project_folder verbose true timeout initial_results w
          = (Return d, w')
       /\ has_counts d 1 0 0 0).
Proof.
  split; [|split].
  - intros url filename verbose overwrite timeout w r w' H.
    pose proof (download_file_results _ _ _ _ _ _ _ _ _ _ H) as Hr.
    split; [exact Hr|]. destruct Hr as [-> | [-> | ->]]; discriminate.
  - intros url extensions project_folder create_folder verbose overwrite timeout w w' H.
    destruct (download_files_returns net urljoin dir_size makedirs _ _ _ _ _ _ _ _ _ H)
      as (resp & files & w1 & d & w2 & s & o & k & e & _ & _ & _ & Hloop & Hc & ->).
    destruct (download_loop_counts net dir_size _ _ _ _ _ _ _ _ _ _ _ _ _
                initial_counts Hloop) as (s' & k' & e' & Hc' & _).
    destruct Hc as (Hs & Ho & Hk & He), Hc' as (Hs' & Ho' & Hk' & He').
    rewrite Ho in Ho'. simplify_eq. by exists w2, s, k, e.
  - intros url project_folder verbose timeout w resp total old Hold Hnet Hint Hdone He.
    destruct (answered_match url (join project_folder (basename url)) verbose true
                timeout w resp total) as (w' & Hrun & Hfile & _); try assumption.
    { right. split; [reflexivity|]. by exists old. }
    rewrite Hdone in Hrun.
    destruct (download_loop_single_success _ _ _ _ _ _ _ Hrun) as (d & Hloop & Hc).
    exists d, w'. auto.
Qed.

(** What the loop has processed when it ends normally: all the
    candidates, or those up to the one whose download was interrupted,
    which is counted as an error. *)
Lemma download_loop_processed files project_folder verbose overwrite timeout :
  forall d w d' w' s o k e,
    has_counts d s o k e ->
    download_loop files project_folder verbose overwrite timeout d w = (Return d', w') ->
    exists processed remaining s' k' e',
      files = (processed ++ remaining)%list
      /\ has_counts d' s' o k' e'
      /\ s' + k' + e' = s + k + e + Z.of_nat (List.length processed)
      /\ e <= e'
      /\ ((remaining = []
           /\ interrupted_names (out w') = interrupted_names (out w))
          \/ (exists done f,
                processed = (done ++ [f])%list
                /\ interrupted_names (out w')
                   = (interrupted_names (out w)
                      ++ [join project_folder (basename f)])%list
                /\ e + 1 <= e')).
Proof.
  induction files as [|file rest IH]; intros d w d' w' s o k e Hc Hrun.
  - simpl in Hrun. simplify_eq. exists [], [], s, k, e.
    split; [reflexivity|]. split; [exact Hc|]. split; [simpl; lia|].
    split; [lia|]. left. auto.
  - cbn [FileScraper.download_loop] in Hrun.
    pose proof (download_file_interrupted_names net dir_size file
                  (join project_folder (basename file)) verbose overwrite timeout w)
      as Hnames.
    destruct (download_file file (join project_folder (basename file))
                verbose overwrite timeout w) as [[r | ex] w1] eqn:Hdl; simpl in Hnames.
    + destruct (increment_counts_mono d r s o k e Hc
                  (download_file_results _ _ _ _ _ _ _ _ _ _ Hdl))
        as (d1 & s1 & k1 & e1 & Hinc & Hc1 & Hsum & _ & _ & He1).
      rewrite Hinc in Hrun.
      destruct (IH _ _ _ _ _ _ _ _ Hc1 Hrun)
        as (processed & remaining & s' & k' & e' & -> & Hc' & Hsum' & He' & Hend).
      exists (file :: processed), remaining, s', k', e'.
      split; [reflexivity|]. split; [exact Hc'|].
      split; [cbn [List.length]; lia|]. split; [lia|].
      rewrite Hnames in Hend.
      destruct Hend as [(-> & Hn) | (done & f & -> & Hn & Hf)].
      * left. auto.
      * right. exists (file :: done), f. split; [reflexivity|]. split; [exact Hn | lia].
    + destruct ex; simplify_eq.
      destruct (interrupt_handler_names _ _ _ _ _ _ _ _ _ Hc Hrun) as (Hc' & Hn).
      exists [file], rest, s, k, (e + 1).
      split; [reflexivity|]. split; [exact Hc'|].
      split; [cbn [List.length]; lia|]. split; [lia|].
      right. exists [], file. split; [reflexivity|]. rewrite Hn, Hnames.
      split; [reflexivity | lia].
Qed.

(** A run of [download_files] that returns, with the names of the
    interrupted downloads. *)
Lemma download_files_run url extensions project_folder create_folder
    verbose overwrite timeout w w' :
  download_files url extensions project_folder create_folder verbose overwrite timeout w
  = (Return tt, w') ->
  exists resp files w1 d w2 s o k e,
    net (List.length (reqs w)) url false timeout = GetOk resp /\
    files_to_download urljoin url extensions (anchors resp) = Return files /\
    interrupted_names (out w1) = interrupted_names (out w) /\
    download_loop files project_folder verbose overwrite timeout initial_results w1
    = (Return d, w2) /\
    has_counts d s o k e /\
    w' = print (DownloadResults s o k e) w2.
Proof.
  unfold FileScraper.download_files, requests_get, print_results, getitem.
  intros H.
  repeat (split_match; simplify_eq/=).
  all: eexists _, _, _, _, _, _, _, _, _.
  all: (split; [reflexivity|]); (split; [eassumption|]).
  all: (split; [|split; [eassumption|]; split; [repeat split; eassumption|reflexivity]]).
  all: simpl; rewrite ?interrupted_names_app; simpl; by rewrite ?app_nil_r.
Qed.

(** C4, as the code has it. In every run of [download_files] that
    reaches the final print, success + overwrite + skipped + error is
    the number of candidates that the loop processed.  These are all the
    links retained by the extension filter when the user interrupted no
    download; otherwise they are the candidates up to and including the
    one whose download was interrupted: it is counted as an error, its
    "[Interrupted]" line is printed, and the candidates after it are not
    processed, so that the sum is at most the number of retained
    links. *)
Theorem tally_counts_processed_candidates :
  forall url extensions project_folder create_folder verbose overwrite timeout w w',
    download_files url extensions project_folder create_folder verbose overwrite timeout w
    = (Return tt, w') ->
    exists resp files processed remaining w2 s o k e,
      net (List.length (reqs w)) url false timeout = GetOk resp /\
      files_to_download urljoin url extensions (anchors resp) = Return files /\
      files = (processed ++ remaining)%list /\
      w' = print (DownloadResults s o k e) w2 /\
      s + o + k + e = Z.of_nat (List.length processed) /\
      s + o + k + e <= Z.of_nat (List.length files) /\
      ((remaining = []
        /\ interrupted_names (out w') = interrupted_names (out w))
       \/ (exists done f,
             processed = (done ++ [f])%list
             /\ interrupted_names (out w')
                = (interrupted_names (out w)
                   ++ [join project_folder (basename f)])%list
             /\ 1 <= e)).
Proof.
  intros url extensions project_folder create_folder verbose overwrite timeout w w' H.
  destruct (download_files_run _ _ _ _ _ _ _ _ _ H)
    as (resp & files & w1 & d & w2 & s & o & k & e & Hnet & Hfiles & Hw1 & Hloop & Hc & ->).
  destruct (download_loop_processed _ _ _ _ _ _ _ _ _ _ _ _ _ initial_counts Hloop)
    as (processed & remaining & s' & k' & e' & Hsplit & Hc' & Hsum & He & Hend).
  destruct Hc as (Hs & Ho & Hk & He0), Hc' as (Hs' & Ho' & Hk' & He').
  assert (s = s') by congruence. assert (o = 0) by congruence.
  assert (k = k') by congruence. assert (e = e') by congruence. subst s o k e.
  exists resp, files, processed, remaining, w2, s', 0, k', e'.
  repeat split; try assumption; try lia.
  - rewrite Hsplit, List.length_app. lia.
  - simpl. rewrite interrupted_names_app, app_nil_r, <- Hw1.
    destruct Hend as [(-> & Hn) | (done & f & -> & Hn & Hf)].
    + left. auto.
    + right. exists done, f. repeat split; auto; lia.
Qed.

End Downloads.

(** *** Runs that witness the statements above *)

Lemma size_mismatch_deletes_witness :
  fs (snd (FileScraper.download_file Scenarios.net_breaks_after_two Scenarios.four_kib
             "http://example.com/a.pdf" "dl/a.pdf" false true 30
             Scenarios.folder_with_old)) !! "dl/a.pdf" = None
  /\ In (Deleted "dl/a.pdf")
       (out (snd (FileScraper.download_file Scenarios.net_breaks_after_two
                    Scenarios.four_kib "http://example.com/a.pdf" "dl/a.pdf" false true 30
                    Scenarios.folder_with_old))).
Proof.
  apply (size_mismatch_deletes Scenarios.net_breaks_after_two Scenarios.four_kib
           "http://example.com/a.pdf" "dl/a.pdf" false true 30 Scenarios.folder_with_old
           (Scenarios.file_response (FileScraper.CLInt 4) [Scenarios.ab]
              (FileScraper.StreamFails "Connection broken")) 4).
  - right. split; [reflexivity|]. exists Scenarios.old_bytes. reflexivity.
  - reflexivity.
  - reflexivity.
  - simpl. lia.
Defined.

Lemma missing_content_length_deletes_download_witness :
  exists w',
    FileScraper.download_file Scenarios.net_chunked_two Scenarios.four_kib
      "http://example.com/a.pdf" "dl/a.pdf" false false 30 Scenarios.empty_folder
    = (Return "success", w')
    /\ fs w' !! "dl/a.pdf" = None
    /\ In (Deleted "dl/a.pdf") (out w').
Proof.
  apply (missing_content_length_deletes_download Scenarios.net_chunked_two
           Scenarios.four_kib "http://example.com/a.pdf" "dl/a.pdf" false false 30
           Scenarios.empty_folder
           (Scenarios.file_response FileScraper.CLAbsent [Scenarios.ab]
              FileScraper.StreamDone)).
  - left. reflexivity.
  - reflexivity.
  - reflexivity.
  - reflexivity.
  - simpl. discriminate.
Defined.

Lemma overwrite_is_never_counted_witness :
  exists d w',
    FileScraper.download_file Scenarios.net_sends_two Scenarios.four_kib
      "http://example.com/a.pdf" (join "dl" (basename "http://example.com/a.pdf"))
      false true 30 Scenarios.folder_with_old
    = (Return "success", w')
    /\ fs w' !! join "dl" (basename "http://example.com/a.pdf")
       = Some (File (concat [Scenarios.ab]))
    /\ FileScraper.download_loop Scenarios.net_sends_two Scenarios.four_kib
         ["http://example.com/a.pdf"] "dl" false true 30 FileScraper.initial_results
         Scenarios.folder_with_old
       = (Return d, w')
    /\ has_counts d 1 0 0 0.
Proof.
  apply (proj2 (proj2 (overwrite_is_never_counted Scenarios.net_sends_two
                         Scenarios.urljoin_plain Scenarios.four_kib Scenarios.makedirs_leaf))
           "http://example.com/a.pdf" "dl" false 30 Scenarios.folder_with_old
           (Scenarios.file_response (FileScraper.CLInt 2) [Scenarios.ab]
              FileScraper.StreamDone) 2 Scenarios.old_bytes).
  - reflexivity.
  - reflexivity.
  - reflexivity.
  - reflexivity.
  - reflexivity.
Defined.

Lemma tally_counts_processed_candidates_witness :
  exists resp files processed remaining w2 s o k e,
    Scenarios.net_page_then_interrupted (List.length (reqs Scenarios.empty_folder))
      "http://example.com/" false 30 = FileScraper.GetOk resp /\
    FileScraper.files_to_download Scenarios.urljoin_plain "http://example.com/" [".pdf"]
      (FileScraper.anchors resp) = Return files /\
    files = (processed ++ remaining)%list /\
    snd (FileScraper.download_files Scenarios.net_page_then_interrupted
           Scenarios.urljoin_plain Scenarios.four_kib Scenarios.makedirs_leaf
           "http://example.com/" [".pdf"] "dl" false false false 30
           Scenarios.empty_folder)
    = print (DownloadResults s o k e) w2 /\
    s + o + k + e = Z.of_nat (List.length processed) /\
    s + o + k + e <= Z.of_nat (List.length files) /\
    ((remaining = []
      /\ interrupted_names
           (out (snd (FileScraper.download_files Scenarios.net_page_then_interrupted
                        Scenarios.urljoin_plain Scenarios.four_kib Scenarios.makedirs_leaf
                        "http://example.com/" [".pdf"] "dl" false false false 30
                        Scenarios.empty_folder)))
         = interrupted_names (out Scenarios.empty_folder))
     \/ (exists done f,
           processed = (done ++ [f])%list
           /\ interrupted_names
                (out (snd (FileScraper.download_files Scenarios.net_page_then_interrupted
                             Scenarios.urljoin_plain Scenarios.four_kib
                             Scenarios.makedirs_leaf "http://example.com/" [".pdf"] "dl"
                             false false false 30 Scenarios.empty_folder)))
              = (interrupted_names (out Scenarios.empty_folder)
                 ++ [join "dl" (basename f)])%list
           /\ 1 <= e)).
Proof.
  apply (tally_counts_processed_candidates Scenarios.net_page_then_interrupted
           Scenarios.urljoin_plain Scenarios.four_kib Scenarios.makedirs_leaf
           "http://example.com/" [".pdf"] "dl" false false false 30
           Scenarios.empty_folder).
  vm_compute. reflexivity.
Defined.

(** C4 fails as the specification words it: the user interrupts the
    first of two candidates, the loop stops, and the tally that is
    printed sums to 1. *)
Lemma interrupted_run_counts_fewer :
  FileScraper.files_to_download Scenarios.urljoin_plain "http://example.com/" [".pdf"]
    Scenarios.two_links
  = Return ["http://example.com/a.pdf"; "http://example.com/b.pdf"]
  /\ fst (FileScraper.download_files Scenarios.net_page_then_interrupted
            Scenarios.urljoin_plain Scenarios.four_kib Scenarios.makedirs_leaf
              "http://example.com/" [".pdf"] "dl"
            false false false 30 Scenarios.empty_folder) = Return tt
  /\ out (snd (FileScraper.download_files Scenarios.net_page_then_interrupted
                 Scenarios.urljoin_plain Scenarios.four_kib Scenarios.makedirs_leaf
                   "http://example.com/" [".pdf"]
                 "dl" false false false 30 Scenarios.empty_folder))
     = [Deleted "dl/a.pdf"; Interrupted "dl/a.pdf"; DownloadResults 0 0 0 1]
  /\ 0 + 0 + 0 + 1 <> Z.of_nat (List.length ["http://example.com/a.pdf";
                                              "http://example.com/b.pdf"]).
Proof. repeat split; try reflexivity. simpl. lia. Qed.

(** ** Failures and interruptions *)

Section Failures.
Import FileScraper.

Variable net : nat -> string -> bool -> Z -> get_result.
Variable dir_size : string -> Z.

Abbreviation download_file := (download_file net dir_size).
Abbreviation download_loop := (download_loop net dir_size).

(** A refused request for a file that is not there yet: the error is
    printed, "error" is returned and nothing is written. *)
Lemma refused_request_is_error url filename verbose overwrite timeout w err :
  fs w !! filename = None ->
  net (List.length (reqs w)) url true timeout = GetRaises err ->
  exists w',
    download_file url filename verbose overwrite timeout w = (Return "error", w')
    /\ fs w' = fs w
    /\ out w' = (out w ++ [ErrorLine filename err])%list.
Proof.
  intros Hnone Hnet. unfold_download.
  rewrite (exists_false _ _ Hnone), Hnet. simpl.
  rewrite (exists_false filename); [|exact Hnone].
  eexists. split; [reflexivity|]. split; reflexivity.
Qed.

(** A user interruption of the stream: whatever was written, the file
    is gone when the loop ends, one error is counted, and the loop ends
    there: the only request made is the one for this file. *)
Lemma interrupted_download_is_removed
    file rest project_folder verbose overwrite timeout d w resp total s o k e :
  downloads (join project_folder (basename file)) overwrite w ->
  net (List.length (reqs w)) file true timeout = GetOk resp ->
  int_content_length (content_length resp) = Return total ->
  ending resp = StreamInterrupted ->
  has_counts d s o k e ->
  exists d' w',
    download_loop (file :: rest) project_folder verbose overwrite timeout d w
    = (Return d', w')
    /\ fs w' !! join project_folder (basename file) = None
    /\ has_counts d' s o k (e + 1)
    /\ reqs w' = (reqs w ++ [file])%list.
Proof.
  intros Hd Hnet Hint Hend Hc.
  set (filename := join project_folder (basename file)) in *.
  assert (Hinc : increment d "error" = Return (<["error" := e + 1]> d)).
  { destruct Hc as (_ & _ & _ & He). unfold increment. by rewrite He. }
  assert (Hc' : has_counts (<["error" := e + 1]> d) s o k (e + 1)).
  { destruct Hc as (Hs & Ho & Hk & He). repeat split; by simplify_map_eq. }
  cbn [FileScraper.download_loop]. fold filename.
  destruct (Z.eq_dec (Z.of_nat (List.length (concat (chunks resp)))) total) as [Heq | Hne].
  - destruct (answered_match net dir_size file filename verbose overwrite timeout w
                resp total Hd Hnet Hint Heq) as (w1 & -> & Hfile & _ & Hreqs).
    rewrite Hend. unfold interrupt_handler, os_remove.
    rewrite (exists_true filename (print (Interrupted filename) w1) _ Hfile).
    simpl. rewrite Hfile, Hinc.
    eexists _, _. split; [reflexivity|]. simpl.
    rewrite lookup_delete_eq. auto.
  - destruct (answered_mismatch net dir_size file filename verbose overwrite timeout w
                resp total Hd Hnet Hint Hne) as (w1 & -> & Hnone & _ & Hreqs & _).
    rewrite Hend. unfold interrupt_handler.
    rewrite (exists_false filename (print (Interrupted filename) w1) Hnone), Hinc.
    eexists _, _. split; [reflexivity|]. auto.
Qed.

End Failures.

(** C3, at the input where the code leaves a file behind. The server
    answers without [Content-Length] and the connection breaks before
    the first chunk: [open] has created the file, nothing was written,
    the expected size is 0, so the [finally] block keeps the empty file;
    with [overwrite] the earlier contents are lost as well. *)
Theorem broken_chunked_stream_leaves_empty_file :
  (fst (FileScraper.download_file Scenarios.net_chunked_breaks Scenarios.four_kib
          "http://example.com/a.pdf" "dl/a.pdf" false false 30 Scenarios.empty_folder)
   = Return "error"
   /\ fs (snd (FileScraper.download_file Scenarios.net_chunked_breaks Scenarios.four_kib
                 "http://example.com/a.pdf" "dl/a.pdf" false false 30
                 Scenarios.empty_folder)) !! "dl/a.pdf"
      = Some (File []))
  /\ fs Scenarios.folder_with_old !! "dl/a.pdf" = Some (File Scenarios.old_bytes)
  /\ fs (snd (FileScraper.download_file Scenarios.net_chunked_breaks Scenarios.four_kib
                "http://example.com/a.pdf" "dl/a.pdf" false true 30
                Scenarios.folder_with_old)) !! "dl/a.pdf"
     = Some (File []).
Proof. repeat split. Qed.

(** C5, at the input where the code does not return. The file exists,
    [overwrite] is set and the request is refused: the [except] clause
    prints the error, then the [finally] block reads [total_size], which
    was never assigned, and [UnboundLocalError] leaves [download_file].
    [download_files] does not catch it: the second candidate is never
    requested and no tally is printed. *)
Theorem refused_overwrite_aborts_the_batch :
  (fst (FileScraper.download_file Scenarios.net_refused Scenarios.four_kib
          "http://example.com/a.pdf" "dl/a.pdf" false true 30 Scenarios.folder_with_old)
   = Raise UnboundLocalError
   /\ out (snd (FileScraper.download_file Scenarios.net_refused Scenarios.four_kib
                  "http://example.com/a.pdf" "dl/a.pdf" false true 30
                  Scenarios.folder_with_old))
      = [Overwriting "dl/a.pdf"; ErrorLine "dl/a.pdf" "Connection refused"])
  /\ FileScraper.files_to_download Scenarios.urljoin_plain "http://example.com/" [".pdf"]
       Scenarios.two_links
     = Return ["http://example.com/a.pdf"; "http://example.com/b.pdf"]
  /\ fst (FileScraper.download_files Scenarios.net_page_then_refused
            Scenarios.urljoin_plain Scenarios.four_kib Scenarios.makedirs_leaf
              "http://example.com/" [".pdf"] "dl"
            false false true 30 Scenarios.folder_with_old)
     = Raise UnboundLocalError
  /\ reqs (snd (FileScraper.download_files Scenarios.net_page_then_refused
                  Scenarios.urljoin_plain Scenarios.four_kib Scenarios.makedirs_leaf
                    "http://example.com/"
                  [".pdf"] "dl" false false true 30 Scenarios.folder_with_old))
     = ["http://example.com/"; "http://example.com/a.pdf"]
  /\ out (snd (FileScraper.download_files Scenarios.net_page_then_refused
                 Scenarios.urljoin_plain Scenarios.four_kib Scenarios.makedirs_leaf
                   "http://example.com/"
                 [".pdf"] "dl" false false true 30 Scenarios.folder_with_old))
     = [Overwriting "dl/a.pdf"; ErrorLine "dl/a.pdf" "Connection refused"].
Proof. repeat split. Qed.

(** ** The converters *)


Section Converters.

Variable popen : list string -> gmap string node -> popen_result.


(** What [convert_to_docx] leaves in the world when it does not skip:
    if the program ran, its command line in the trace and the file
    system as it left it; if [Popen] raised, nothing. *)
Lemma convert_frame libreoffice_path doc_file output_path output_file w :
  match popen (Doc2Docx.command_line libreoffice_path doc_file output_path) (fs w) with
  | PopenExits _ _ _ fs' =>
      procs (snd (Doc2Docx.convert popen libreoffice_path doc_file output_path
                    output_file w))
      = (procs w ++ [Doc2Docx.command_line libreoffice_path doc_file output_path])%list
      /\ fs (snd (Doc2Docx.convert popen libreoffice_path doc_file output_path
                    output_file w)) = fs'
  | PopenRaises e _ =>
      Doc2Docx.convert popen libreoffice_path doc_file output_path output_file w
      = (Raise e, w)
  end.
Proof.
  unfold Doc2Docx.convert, spawn, Doc2Docx.report, decode.
  repeat (split_match; simplify_eq/=); try split; reflexivity.
Qed.

End Converters.



(** ** Existing outputs: skip or overwrite *)

Lemma convert_to_md_frame popen pandoc_path docx_file output_directory verbose w :
  match popen (Docx2Md.command_line pandoc_path docx_file
                 (Docx2Md.output_file_of output_directory docx_file)) (fs w) with
  | PopenExits _ _ _ fs' =>
      procs (snd (Docx2Md.convert_to_md popen pandoc_path docx_file output_directory
                    true verbose w))
      = (procs w ++ [Docx2Md.command_line pandoc_path docx_file
                       (Docx2Md.output_file_of output_directory docx_file)])%list
      /\ fs (snd (Docx2Md.convert_to_md popen pandoc_path docx_file output_directory
                    true verbose w)) = fs'
  | PopenRaises _ _ =>
      procs (snd (Docx2Md.convert_to_md popen pandoc_path docx_file output_directory
                    true verbose w)) = procs w
      /\ fs (snd (Docx2Md.convert_to_md popen pandoc_path docx_file output_directory
                    true verbose w)) = fs w
  end.
Proof.
  unfold Docx2Md.convert_to_md, spawn, decode.
  repeat (split_match; simplify_eq/=); split; reflexivity.
Qed.

(** C1, as the code has it. For a target file that exists before the
    call: with [overwrite = false] each of [convert_to_docx],
    [convert_to_md] and [download_file] skips it and leaves its contents
    unchanged: no program is run, no request is made, no byte is written
    for it.  With [overwrite = true] none of them skips.  The two
    converters call their program once, on the fixed command line: if it
    runs, the target afterwards is what the program left there, so that
    it is replaced if the program replaces it; if [Popen] raises, no
    program ran and the target is unchanged.  [download_file] requests
    the URL; when the request is answered and the stream completes with
    as many bytes as the expected size, the file holds the downloaded
    bytes and "success" is returned; when the number of bytes written
    differs from the expected size, the existing file is deleted and not
    replaced. *)
Theorem existing_output_policy :
  (* overwrite = false *)
  (forall popen libreoffice_path doc_file output_path w,
     os_path_exists (Doc2Docx.output_file_of output_path doc_file) w = true ->
     exists w',
       Doc2Docx.convert_to_docx popen libreoffice_path doc_file output_path false w
       = (Return tt, w')
       /\ fs w' !! Doc2Docx.output_file_of output_path doc_file
          = fs w !! Doc2Docx.output_file_of output_path doc_file
       /\ procs w' = procs w /\ reqs w' = reqs w)
  /\
  (forall popen pandoc_path docx_file output_directory verbose w,
     os_path_exists (Docx2Md.output_file_of output_directory docx_file) w = true ->
     exists w',
       Docx2Md.convert_to_md popen pandoc_path docx_file output_directory false verbose w
       = (Return tt, w')
       /\ fs w' !! Docx2Md.output_file_of output_directory docx_file
          = fs w !! Docx2Md.output_file_of output_directory docx_file
       /\ procs w' = procs w /\ reqs w' = reqs w)
  /\
  (forall net dir_size url filename verbose timeout w,
     os_path_exists filename w = true ->
     exists w',
       FileScraper.download_file net dir_size url filename verbose false timeout w
       = (Return "skipped", w')
       /\ fs w' !! filename = fs w !! filename
       /\ procs w' = procs w /\ reqs w' = reqs w)
  /\
  (* overwrite = true *)
  (forall popen libreoffice_path doc_file output_path w,
     os_path_exists (Doc2Docx.output_file_of output_path doc_file) w = true ->
     match popen (Doc2Docx.command_line libreoffice_path doc_file output_path) (fs w) with
     | PopenExits _ _ _ fs' =>
         procs (snd (Doc2Docx.convert_to_docx popen libreoffice_path doc_file output_path
                       true w))
         = (procs w ++ [Doc2Docx.command_line libreoffice_path doc_file output_path])%list
         /\ fs (snd (Doc2Docx.convert_to_docx popen libreoffice_path doc_file
                       output_path true w))
              !! Doc2Docx.output_file_of output_path doc_file
            = fs' !! Doc2Docx.output_file_of output_path doc_file
     | PopenRaises e _ =>
         fst (Doc2Docx.convert_to_docx popen libreoffice_path doc_file output_path true w)
         = Raise e
         /\ procs (snd (Doc2Docx.convert_to_docx popen libreoffice_path doc_file
                          output_path true w)) = procs w
         /\ fs (snd (Doc2Docx.convert_to_docx popen libreoffice_path doc_file
                       output_path true w))
              !! Doc2Docx.output_file_of output_path doc_file
            = fs w !! Doc2Docx.output_file_of output_path doc_file
     end)
  /\
  (forall popen pandoc_path docx_file output_directory verbose w,
     os_path_exists (Docx2Md.output_file_of output_directory docx_file) w = true ->
     match popen (Docx2Md.command_line pandoc_path docx_file
                    (Docx2Md.output_file_of output_directory docx_file)) (fs w) with
     | PopenExits _ _ _ fs' =>
         procs (snd (Docx2Md.convert_to_md popen pandoc_path docx_file output_directory
                       true verbose w))
         = (procs w ++ [Docx2Md.command_line pandoc_path docx_file
                          (Docx2Md.output_file_of output_directory docx_file)])%list
         /\ fs (snd (Docx2Md.convert_to_md popen pandoc_path docx_file output_directory
                       true verbose w))
              !! Docx2Md.output_file_of output_directory docx_file
            = fs' !! Docx2Md.output_file_of output_directory docx_file
     | PopenRaises _ _ =>
         procs (snd (Docx2Md.convert_to_md popen pandoc_path docx_file output_directory
                       true verbose w)) = procs w
         /\ fs (snd (Docx2Md.convert_to_md popen pandoc_path docx_file output_directory
                       true verbose w))
              !! Docx2Md.output_file_of output_directory docx_file
            = fs w !! Docx2Md.output_file_of output_directory docx_file
     end)
  /\
  (forall net dir_size url filename verbose timeout w old resp total,
     fs w !! filename = Some (File old) ->
     net (List.length (reqs w)) url true timeout = FileScraper.GetOk resp ->
     FileScraper.int_content_length (FileScraper.content_length resp) = Return total ->
     (FileScraper.ending resp = FileScraper.StreamDone ->
      Z.of_nat (List.length (concat (FileScraper.chunks resp))) = total ->
      exists w',
        FileScraper.download_file net dir_size url filename verbose true timeout w
        = (Return "success", w')
        /\ fs w' !! filename = Some (File (concat (FileScraper.chunks resp))))
     /\
     (Z.of_nat (List.length (concat (FileScraper.chunks resp))) <> total ->
      fs (snd (FileScraper.download_file net dir_size url filename verbose true timeout w))
        !! filename = None)).
Proof.
  repeat apply conj.
  - intros popen libreoffice_path doc_file output_path w Hex.
    unfold Doc2Docx.convert_to_docx. rewrite Hex.
    eexists. split; [reflexivity|]. auto.
  - intros popen pandoc_path docx_file output_directory verbose w Hex.
    unfold Docx2Md.convert_to_md. rewrite Hex.
    eexists. split; [reflexivity|]. auto.
  - intros net dir_size url filename verbose timeout w Hex.
    unfold FileScraper.download_file. rewrite Hex.
    eexists. split; [reflexivity|]. auto.
  - intros popen libreoffice_path doc_file output_path w Hex.
    unfold Doc2Docx.convert_to_docx. rewrite Hex.
    pose proof (convert_frame popen libreoffice_path doc_file output_path
                  (Doc2Docx.output_file_of output_path doc_file)
                  (logging INFO "File %s already exists. Overwriting."
                     [Doc2Docx.output_file_of output_path doc_file] w)) as Hframe.
    cbn [fs logging] in Hframe.
    destruct (popen (Doc2Docx.command_line libreoffice_path doc_file output_path) (fs w)).
    + rewrite Hframe. auto.
    + destruct Hframe as [-> ->]. auto.
  - intros popen pandoc_path docx_file output_directory verbose w _.
    pose proof (convert_to_md_frame popen pandoc_path docx_file output_directory
                  verbose w) as Hframe.
    destruct (popen (Docx2Md.command_line pandoc_path docx_file
                       (Docx2Md.output_file_of output_directory docx_file)) (fs w));
      destruct Hframe as [-> ->]; auto.
  - intros net dir_size url filename verbose timeout w old resp total Hold Hnet Hint.
    assert (Hd : downloads filename true w).
    { right. split; [reflexivity|]. by exists old. }
    split.
    + intros Hdone Heq.
      destruct (answered_match net dir_size url filename verbose true timeout w resp total
                  Hd Hnet Hint Heq) as (w' & Hrun & Hfile & _).
      rewrite Hdone in Hrun. eauto.
    + intros Hne.
      destruct (answered_mismatch net dir_size url filename verbose true timeout w resp
                  total Hd Hnet Hint Hne) as (w' & -> & Hnone & _).
      exact Hnone.
Qed.

Lemma existing_output_policy_witness :
  (exists w',
     Doc2Docx.convert_to_docx Scenarios.popen_complains "soffice" "in/a.doc" "out" false
       Scenarios.converted_before
     = (Return tt, w')
     /\ fs w' !! Doc2Docx.output_file_of "out" "in/a.doc"
        = fs Scenarios.converted_before !! Doc2Docx.output_file_of "out" "in/a.doc"
     /\ procs w' = procs Scenarios.converted_before
     /\ reqs w' = reqs Scenarios.converted_before)
  /\
  (exists w',
     Docx2Md.convert_to_md Scenarios.popen_complains "pandoc" "in/a.docx" "out" false false
       Scenarios.converted_before
     = (Return tt, w')
     /\ fs w' !! Docx2Md.output_file_of "out" "in/a.docx"
        = fs Scenarios.converted_before !! Docx2Md.output_file_of "out" "in/a.docx"
     /\ procs w' = procs Scenarios.converted_before
     /\ reqs w' = reqs Scenarios.converted_before)
  /\
  (exists w',
     FileScraper.download_file Scenarios.net_sends_two Scenarios.four_kib
       "http://example.com/a.pdf" "dl/a.pdf" false false 30 Scenarios.folder_with_old
     = (Return "skipped", w')
     /\ fs w' !! "dl/a.pdf" = fs Scenarios.folder_with_old !! "dl/a.pdf"
     /\ procs w' = procs Scenarios.folder_with_old
     /\ reqs w' = reqs Scenarios.folder_with_old)
  /\
  (exists w',
     FileScraper.download_file Scenarios.net_sends_two Scenarios.four_kib
       "http://example.com/a.pdf" "dl/a.pdf" false true 30 Scenarios.folder_with_old
     = (Return "success", w')
     /\ fs w' !! "dl/a.pdf" = Some (File (concat [Scenarios.ab]))).
Proof.
  destruct existing_output_policy as (Hdocx & Hmd & Hskip & _ & _ & Hreplace).
  repeat apply conj.
  - apply (Hdocx Scenarios.popen_complains "soffice" "in/a.doc" "out"
             Scenarios.converted_before).
    reflexivity.
  - apply (Hmd Scenarios.popen_complains "pandoc" "in/a.docx" "out" false
             Scenarios.converted_before).
    reflexivity.
  - apply (Hskip Scenarios.net_sends_two Scenarios.four_kib "http://example.com/a.pdf"
             "dl/a.pdf" false 30 Scenarios.folder_with_old).
    reflexivity.
  - apply (Hreplace Scenarios.net_sends_two Scenarios.four_kib "http://example.com/a.pdf"
             "dl/a.pdf" false 30 Scenarios.folder_with_old Scenarios.old_bytes
             (Scenarios.file_response (FileScraper.CLInt 2) [Scenarios.ab]
                FileScraper.StreamDone) 2);
      reflexivity.
Defined.

(** C1 fails as the specification words it: with [overwrite = true]
    an existing file is not always replaced.  The server announces four
    bytes and the connection breaks after two: the earlier file was
    truncated by [open], and the clean-up deletes it. *)
Lemma overwrite_can_lose_the_file :
  fs Scenarios.folder_with_old !! "dl/a.pdf" = Some (File Scenarios.old_bytes)
  /\ fst (FileScraper.download_file Scenarios.net_breaks_after_two Scenarios.four_kib
            "http://example.com/a.pdf" "dl/a.pdf" false true 30 Scenarios.folder_with_old)
     = Return "error"
  /\ ~ (exists data,
          fs (snd (FileScraper.download_file Scenarios.net_breaks_after_two
                     Scenarios.four_kib "http://example.com/a.pdf" "dl/a.pdf" false true 30
                     Scenarios.folder_with_old)) !! "dl/a.pdf"
          = Some (File data)).
Proof.
  split; [reflexivity|]. split; [reflexivity|].
  intros [data H]. vm_compute in H. discriminate.
Qed.

(** * Further properties *)

Import MoreNotions.

(** ** Paths *)

Lemma app_cons_string (c : ascii) (a b : string) : String c a ++ b = String c (a ++ b).
Proof. reflexivity. Qed.

Lemma app_nil_r_string (s : string) : s ++ "" = s.
Proof. induction s as [|c s IH]; [reflexivity | by rewrite app_cons_string, IH]. Qed.

Lemma app_assoc_string (a b c : string) : (a ++ b) ++ c = a ++ (b ++ c).
Proof. induction a as [|x a IH]; [reflexivity | by rewrite !app_cons_string, IH]. Qed.

Lemma slice_from_app (pre post : string) :
  slice_from (String.length pre) (pre ++ post) = post.
Proof.
  unfold slice_from. rewrite length_app.
  replace (String.length pre + String.length post - String.length pre)%nat
    with (String.length post) by lia.
  apply substring_app_r.
Qed.

Lemma slice_to_app (pre post : string) :
  slice_to (String.length pre) (pre ++ post) = pre.
Proof.
  unfold slice_to. induction pre as [|c pre IH].
  - by destruct post.
  - rewrite app_cons_string. simpl. by rewrite IH.
Qed.

Lemma slice_from_0 (p : string) : slice_from 0 p = p.
Proof. unfold slice_from. rewrite Nat.sub_0_r. apply substring_all. Qed.

(** The last occurrence of a character splits the string. *)
Lemma rfind_nat_split (c : ascii) (s : string) (i : nat) :
  rfind_nat c s = Some i ->
  exists pre post,
    s = pre ++ String c post /\ String.length pre = i /\ rfind_nat c post = None.
Proof.
  revert i. induction s as [|a r IH]; intros i H; simpl in H; [discriminate|].
  destruct (rfind_nat c r) as [j|] eqn:Hr.
  - invert H. destruct (IH j eq_refl) as (pre & post & -> & Hlen & Hnone).
    exists (String a pre), post. simpl. by rewrite Hlen.
  - destruct (Ascii.eqb a c) eqn:E; [|discriminate].
    apply Ascii.eqb_eq in E. subst a. invert H.
    exists "", r. auto.
Qed.

Lemma rfind_nat_cons_none (c x : ascii) (s : string) :
  rfind_nat c (String x s) = None <-> rfind_nat c s = None /\ Ascii.eqb x c = false.
Proof.
  simpl. destruct (rfind_nat c s), (Ascii.eqb x c); split;
    try discriminate; try (intros [? ?]; discriminate); auto.
Qed.

Lemma rfind_nat_app_none (c : ascii) (a b : string) :
  rfind_nat c (a ++ b) = None <-> rfind_nat c a = None /\ rfind_nat c b = None.
Proof.
  induction a as [|x a IH].
  - change ("" ++ b) with b. simpl. tauto.
  - rewrite app_cons_string, !rfind_nat_cons_none, IH. tauto.
Qed.

Lemma rfind_nat_last (c : ascii) (pre post : string) :
  rfind_nat c post = None ->
  rfind_nat c (pre ++ String c post) = Some (String.length pre).
Proof.
  intros H. induction pre as [|x pre IH].
  - change ("" ++ String c post) with (String c post). simpl.
    by rewrite H, Ascii.eqb_refl.
  - rewrite app_cons_string. simpl. by rewrite IH.
Qed.

Lemma basename_no_sep (n : string) : rfind_nat "/" n = None -> basename n = n.
Proof. intros H. unfold basename, rfind. rewrite H. apply slice_from_0. Qed.

Lemma basename_after_sep (pre n : string) :
  rfind_nat "/" n = None -> basename (pre ++ String "/" n) = n.
Proof.
  intros H. unfold basename, rfind. rewrite (rfind_nat_last _ pre n H).
  replace (Z.to_nat (Z.of_nat (String.length pre) + 1))
    with (String.length (pre ++ "/")) by (rewrite length_app; simpl; lia).
  replace (pre ++ String "/" n) with ((pre ++ "/") ++ n)
    by (by rewrite app_assoc_string).
  apply slice_from_app.
Qed.

Lemma splitext_scan_cases (p : string) (steps filenameIndex dotIndex : nat) :
  splitext_scan p filenameIndex steps dotIndex = (p, "")
  \/ splitext_scan p filenameIndex steps dotIndex
     = (slice_to dotIndex p, slice_from dotIndex p).
Proof.
  revert filenameIndex. induction steps as [|steps IH]; intros filenameIndex; simpl.
  - by left.
  - destruct (negb _); [by right | apply IH].
Qed.

Lemma no_sep_not_absolute (n : string) :
  rfind_nat "/" n = None -> startswith n "/" = false.
Proof.
  intros H. destruct (startswith n "/") eqn:E; [|reflexivity].
  apply startswith_spec in E as [t ->].
  change ("/" ++ t) with (String "/" t) in H.
  apply rfind_nat_cons_none in H as [_ H]. discriminate.
Qed.

Lemma join_suffix (a b : string) : exists t, join a b = t ++ b.
Proof.
  unfold join. destruct (startswith b "/").
  - by exists "".
  - destruct (_ || _).
    + by exists a.
    + exists (a ++ "/"). by rewrite app_assoc_string.
Qed.

(** [splitext] leaves the path whole, or cuts it at its last dot. *)
Lemma splitext_cases (p : string) :
  splitext p = (p, "")
  \/ exists pre post,
       p = pre ++ String "." post /\ rfind_nat "." post = None
       /\ splitext p = (pre, String "." post).
Proof.
  unfold splitext.
  destruct (rfind "/" p <? rfind "." p) eqn:Hlt; [|by left].
  unfold rfind in *.
  destruct (rfind_nat "." p) as [i|] eqn:Hdot.
  - destruct (rfind_nat_split _ _ _ Hdot) as (pre & post & Hp & Hlen & Hnone).
    rewrite Nat2Z.id.
    match goal with |- context [splitext_scan ?q ?a ?b ?c] =>
      destruct (splitext_scan_cases q b a c) as [-> | ->]
    end; [by left|].
    right. exists pre, post. subst i p.
    by rewrite slice_to_app, slice_from_app.
  - destruct (rfind_nat "/" p); apply Z.ltb_lt in Hlt; lia.
Qed.

(** [os.path.splitext]: root and extension put together give the
    path back, and the extension is empty or is a dot followed by text
    without a dot. *)
Theorem splitext_root_ext :
  forall p : string,
    fst (splitext p) ++ snd (splitext p) = p
    /\ (snd (splitext p) = ""
        \/ exists e, snd (splitext p) = String "." e /\ rfind_nat "." e = None).
Proof.
  intros p. destruct (splitext_cases p) as [-> | (pre & post & Hp & Hnone & ->)]; simpl.
  - split; [apply app_nil_r_string | by left].
  - split; [by rewrite <- Hp | right; eauto].
Qed.

(** [os.path.basename] gives the last component: it contains no
    separator, and the path is a head that is empty or ends with the
    separator, followed by the base name. *)
Theorem basename_is_last_component :
  forall p : string,
    rfind_nat "/" (basename p) = None
    /\ exists head,
         p = head ++ basename p /\ (head = "" \/ endswith head "/" = true).
Proof.
  intros p. destruct (rfind_nat "/" p) as [i|] eqn:Hsep.
  - destruct (rfind_nat_split _ _ _ Hsep) as (pre & post & -> & Hlen & Hnone).
    rewrite (basename_after_sep pre post Hnone). split; [exact Hnone|].
    exists (pre ++ "/"). split.
    + by rewrite app_assoc_string.
    + right. apply endswith_spec. by exists pre.
  - rewrite (basename_no_sep p Hsep). split; [exact Hsep|].
    exists "". split; [reflexivity | by left].
Qed.

(** With a name that has no separator, [join] gives the name alone
    or puts it behind a separator. *)
Lemma join_name_cases (d n : string) :
  rfind_nat "/" n = None ->
  join d n = n \/ exists pre, join d n = pre ++ String "/" n.
Proof.
  intros H. unfold join. rewrite (no_sep_not_absolute n H).
  destruct (String.eqb d "") eqn:Hd; simpl.
  - apply String.eqb_eq in Hd. subst d. by left.
  - right. destruct (endswith d "/") eqn:He.
    + apply endswith_spec in He as [t ->]. exists t. by rewrite app_assoc_string.
    + by exists d.
Qed.

Lemma basename_sep_free (p : string) : rfind_nat "/" (basename p) = None.
Proof.
  destruct (rfind_nat "/" p) as [i|] eqn:Hsep.
  - destruct (rfind_nat_split _ _ _ Hsep) as (pre & post & -> & _ & Hnone).
    by rewrite (basename_after_sep pre post Hnone).
  - by rewrite (basename_no_sep p Hsep).
Qed.

(** Joining a folder and a file name and taking the base name
    gives the file name back, for a name without separator: this is the
    name under which a candidate is saved in the project folder. *)
Theorem basename_of_join :
  forall d n : string, rfind_nat "/" n = None -> basename (join d n) = n.
Proof.
  intros d n H. destruct (join_name_cases d n H) as [-> | (pre & ->)].
  - by apply basename_no_sep.
  - by apply basename_after_sep.
Qed.

Lemma basename_of_join_witness : basename (join "dl" "a.pdf") = "a.pdf".
Proof. apply (basename_of_join "dl" "a.pdf"). reflexivity. Defined.

(** With a name that has no separator, [join] puts the name directly
    in the folder. *)
Lemma join_in_folder (d n : string) :
  rfind_nat "/" n = None -> join d n = in_folder d n.
Proof.
  intros H. unfold join, in_folder. by rewrite (no_sep_not_absolute n H).
Qed.

(** ** Where the converters write *)

Lemma stem_sep_free (p : string) : rfind_nat "/" (fst (splitext (basename p))) = None.
Proof.
  pose proof (basename_sep_free p) as H.
  destruct (splitext_cases (basename p)) as [-> | (pre & post & Hp & _ & ->)]; simpl.
  - exact H.
  - rewrite Hp in H. by apply rfind_nat_app_none in H as [H _].
Qed.

Lemma target_name (output_path source_file ext : string) :
  rfind_nat "/" ext = None ->
  basename (join output_path (fst (splitext (basename source_file)) ++ ext))
  = fst (splitext (basename source_file)) ++ ext
  /\ endswith (join output_path (fst (splitext (basename source_file)) ++ ext)) ext = true.
Proof.
  intros Hext.
  assert (Hname : rfind_nat "/" (fst (splitext (basename source_file)) ++ ext) = None).
  { apply rfind_nat_app_none. split; [apply stem_sep_free | exact Hext]. }
  split.
  - destruct (join_name_cases output_path _ Hname) as [-> | (pre & ->)].
    + by apply basename_no_sep.
    + by apply basename_after_sep.
  - apply endswith_spec.
    destruct (join_suffix output_path (fst (splitext (basename source_file)) ++ ext))
      as (t & ->).
    exists (t ++ fst (splitext (basename source_file))). by rewrite app_assoc_string.
Qed.

(** X1. The target of a conversion lies directly in the output
    folder, whatever the folder of the source: it is the output folder
    followed by one name without separator, the base name of the source
    with its extension replaced by ".docx" for [convert_to_docx] and by
    ".md" for [convert_to_md]. *)
Theorem converter_target_is_flat :
  forall output_path source_file : string,
    rfind_nat "/" (fst (splitext (basename source_file))) = None
    /\ fst (splitext (basename source_file)) ++ snd (splitext (basename source_file))
       = basename source_file
    /\ (Doc2Docx.output_file_of output_path source_file
        = in_folder output_path (fst (splitext (basename source_file)) ++ ".docx")
        /\ rfind_nat "/" (fst (splitext (basename source_file)) ++ ".docx") = None
        /\ basename (Doc2Docx.output_file_of output_path source_file)
           = fst (splitext (basename source_file)) ++ ".docx")
    /\ (Docx2Md.output_file_of output_path source_file
        = in_folder output_path (fst (splitext (basename source_file)) ++ ".md")
        /\ rfind_nat "/" (fst (splitext (basename source_file)) ++ ".md") = None
        /\ basename (Docx2Md.output_file_of output_path source_file)
           = fst (splitext (basename source_file)) ++ ".md").
Proof.
  intros output_path source_file.
  pose proof (stem_sep_free source_file) as Hstem.
  assert (Hname : forall ext, rfind_nat "/" ext = None ->
            rfind_nat "/" (fst (splitext (basename source_file)) ++ ext) = None).
  { intros ext Hext. apply rfind_nat_app_none. by split. }
  split; [exact Hstem|]. split.
  { destruct (splitext_cases (basename source_file))
      as [-> | (pre & post & Hp & _ & ->)]; simpl.
    - apply app_nil_r_string.
    - by rewrite <- Hp. }
  split.
  - split; [apply join_in_folder; by apply Hname|].
    split; [by apply Hname|].
    by apply (target_name output_path source_file ".docx").
  - split; [apply join_in_folder; by apply Hname|].
    split; [by apply Hname|].
    by apply (target_name output_path source_file ".md").
Qed.

(** X2. Two sources with the same file name in different folders have
    the same target; once the target is there, converting the second
    without [overwrite] is skipped: the call returns, no program is run,
    no request is made and the target is left as it is. *)
Theorem same_name_same_target :
  forall popen pandoc_path output_directory d1 d2 n verbose w,
    rfind_nat "/" n = None ->
    Docx2Md.output_file_of output_directory (join d1 n)
    = Docx2Md.output_file_of output_directory (join d2 n)
    /\ (os_path_exists (Docx2Md.output_file_of output_directory (join d1 n)) w = true ->
        exists w',
          Docx2Md.convert_to_md popen pandoc_path (join d2 n) output_directory
            false verbose w = (Return tt, w')
          /\ procs w' = procs w
          /\ reqs w' = reqs w
          /\ fs w' !! Docx2Md.output_file_of output_directory (join d2 n)
             = fs w !! Docx2Md.output_file_of output_directory (join d1 n)).
Proof.
  intros popen pandoc_path output_directory d1 d2 n verbose w Hn.
  assert (Hbase : forall d, basename (join d n) = n).
  { intros d. destruct (join_name_cases d n Hn) as [-> | (pre & ->)].
    - by apply basename_no_sep.
    - by apply basename_after_sep. }
  assert (Hsame : Docx2Md.output_file_of output_directory (join d1 n)
                  = Docx2Md.output_file_of output_directory (join d2 n)).
  { unfold Docx2Md.output_file_of. by rewrite !Hbase. }
  split; [exact Hsame|].
  intros Hex. unfold Docx2Md.convert_to_md. rewrite <- Hsame, Hex. simpl.
  eexists. split; [reflexivity|]. auto.
Qed.

Lemma same_name_same_target_witness :
  Docx2Md.output_file_of "out" (join "in/x" "a.docx")
  = Docx2Md.output_file_of "out" (join "in/y" "a.docx")
  /\ exists w',
       Docx2Md.convert_to_md Scenarios.popen_complains "pandoc" (join "in/y" "a.docx")
         "out" false false Scenarios.converted_before = (Return tt, w')
       /\ procs w' = procs Scenarios.converted_before
       /\ reqs w' = reqs Scenarios.converted_before
       /\ fs w' !! Docx2Md.output_file_of "out" (join "in/y" "a.docx")
          = fs Scenarios.converted_before
              !! Docx2Md.output_file_of "out" (join "in/x" "a.docx").
Proof.
  destruct (same_name_same_target Scenarios.popen_complains "pandoc" "out" "in/x" "in/y"
              "a.docx" false Scenarios.converted_before) as [Hsame Hskip].
  - reflexivity.
  - split; [exact Hsame|]. apply Hskip. reflexivity.
Defined.

(** ** What the converters report *)

Lemma lstrip_nil (l : bytes) :
  lstrip l = [] <-> forallb is_ascii_whitespace l = true.
Proof.
  induction l as [|b l IH]; simpl; [tauto|].
  destruct (is_ascii_whitespace b); simpl; [exact IH|].
  split; discriminate.
Qed.

Lemma lstrip_head (l : bytes) (b : Byte.byte) (r : bytes) :
  lstrip l = b :: r -> is_ascii_whitespace b = false.
Proof.
  induction l as [|a l IH]; simpl; [discriminate|].
  destruct (is_ascii_whitespace a) eqn:Ha; [exact IH|].
  intros H. by invert H.
Qed.

(** [stderr.strip()] is empty exactly for white space. *)
Lemma strip_blank (l : bytes) :
  truthy (strip l) = negb (forallb is_ascii_whitespace l).
Proof.
  unfold strip.
  destruct (forallb is_ascii_whitespace l) eqn:Hall.
  - apply lstrip_nil in Hall. by rewrite Hall.
  - destruct (lstrip l) as [|b r] eqn:Hl.
    + apply lstrip_nil in Hl. congruence.
    + pose proof (lstrip_head _ _ _ Hl) as Hb.
      destruct (lstrip (rev (b :: r))) as [|c r'] eqn:Hr.
      * apply lstrip_nil in Hr. simpl in Hr.
        rewrite forallb_app in Hr. simpl in Hr. rewrite Hb in Hr.
        rewrite andb_false_r in Hr. discriminate.
      * simpl. by destruct (rev r').
Qed.

Lemma utf8_valid_nil : utf8_valid [] = true.
Proof. reflexivity. Qed.

Lemma truthy_invalid (l : bytes) : utf8_valid l = false -> truthy l = true.
Proof. destruct l; [discriminate | reflexivity]. Qed.

Section Reports.

Variable popen : list string -> gmap string node -> popen_result.

(** X4. [convert_to_docx] never looks at the exit status of the
    program: with any other status the call gives the same outcome and
    the same world. *)
Theorem convert_to_docx_ignores_exit_status :
  forall rc libreoffice_path doc_file output_path overwrite w,
    Doc2Docx.convert_to_docx (with_returncode rc popen) libreoffice_path doc_file
      output_path overwrite w
    = Doc2Docx.convert_to_docx popen libreoffice_path doc_file output_path overwrite w.
Proof.
  intros rc libreoffice_path doc_file output_path overwrite w.
  unfold Doc2Docx.convert_to_docx, Doc2Docx.convert, spawn, with_returncode.
  repeat (split_match; simplify_eq/=); reflexivity.
Qed.

(** X5. When the program ran and its output decodes, [convert_to_docx]
    returns, and it logs "Converted" exactly when the standard error of
    the program is white space only (empty included), whatever the exit
    status. *)
Theorem converted_iff_blank_stderr :
  forall libreoffice_path doc_file output_path overwrite w stdout stderr returncode fs',
    os_path_exists (Doc2Docx.output_file_of output_path doc_file) w = false
    \/ overwrite = true ->
    popen (Doc2Docx.command_line libreoffice_path doc_file output_path) (fs w)
    = PopenExits stdout stderr returncode fs' ->
    utf8_valid stdout = true ->
    utf8_valid stderr = true ->
    exists w' new,
      Doc2Docx.convert_to_docx popen libreoffice_path doc_file output_path overwrite w
      = (Return tt, w')
      /\ log w' = (log w ++ new)%list
      /\ (In (LogRecord INFO "Converted: %s to %s"
                [doc_file; Doc2Docx.output_file_of output_path doc_file]) new
          <-> forallb is_ascii_whitespace stderr = true).
Proof.
  intros libreoffice_path doc_file output_path overwrite w stdout stderr returncode fs'
    Hskip Hpopen Hout Herr.
  unfold Doc2Docx.convert_to_docx, Doc2Docx.convert, spawn, Doc2Docx.report, decode.
  destruct (os_path_exists (Doc2Docx.output_file_of output_path doc_file) w) eqn:Hex.
  - destruct Hskip as [? | ->]; [discriminate|].
    cbn [fs logging]. rewrite Hpopen, Hout, Herr, strip_blank.
    destruct (truthy stdout), (truthy stderr) eqn:Ht,
      (forallb is_ascii_whitespace stderr) eqn:Hb; simpl.
    all: try (destruct stderr; simpl in Ht, Hb; discriminate).
    all: eexists _, _; (split; [reflexivity|]); simpl; rewrite <- ?app_assoc;
      (split; [reflexivity|]); simpl.
    all: split; [|auto 10]; intros H; repeat destruct H as [H | H];
      try discriminate; try contradiction; auto.
  - rewrite Hpopen, Hout, Herr, strip_blank.
    destruct (truthy stdout), (truthy stderr) eqn:Ht,
      (forallb is_ascii_whitespace stderr) eqn:Hb; simpl.
    all: try (destruct stderr; simpl in Ht, Hb; discriminate).
    all: eexists _, _; (split; [reflexivity|]); simpl; rewrite <- ?app_assoc;
      (split; [reflexivity|]); simpl.
    all: split; [|auto 10]; intros H; repeat destruct H as [H | H];
      try discriminate; try contradiction; auto.
Qed.

End Reports.

Section Escapes.

Variable popen : list string -> gmap string node -> popen_result.

Ltac decode_cases :=
  repeat match goal with
  | H : utf8_valid ?l = false |- _ =>
      lazymatch goal with
      | _ : truthy l = true |- _ => fail
      | _ => pose proof (truthy_invalid l H)
      end
  end.

(** X6. An exception leaves [convert_to_docx] in two cases only, both
    after the skip test: the program could not be started, and the
    exception of [Popen] goes through; or the program ran and what it
    wrote on one of its streams is not UTF-8, and the call ends with
    [UnicodeDecodeError]. *)
Theorem convert_to_docx_raises_iff :
  forall libreoffice_path doc_file output_path overwrite w e,
    fst (Doc2Docx.convert_to_docx popen libreoffice_path doc_file output_path overwrite w)
    = Raise e
    <->
    (os_path_exists (Doc2Docx.output_file_of output_path doc_file) w = false
     \/ overwrite = true)
    /\ ((exists msg,
           popen (Doc2Docx.command_line libreoffice_path doc_file output_path) (fs w)
           = PopenRaises e msg)
        \/ (e = UnicodeDecodeError
            /\ exists stdout stderr returncode fs',
                 popen (Doc2Docx.command_line libreoffice_path doc_file output_path) (fs w)
                 = PopenExits stdout stderr returncode fs'
                 /\ (utf8_valid stdout = false \/ utf8_valid stderr = false))).
Proof.
  intros libreoffice_path doc_file output_path overwrite w e.
  unfold Doc2Docx.convert_to_docx, Doc2Docx.convert, spawn, Doc2Docx.report, decode.
  destruct (os_path_exists (Doc2Docx.output_file_of output_path doc_file) w) eqn:Hex;
    [destruct overwrite|]; cbn [fs logging].
  2: { simpl. split; [discriminate | intros [[? | ?] _]; discriminate]. }
  all: destruct (popen (Doc2Docx.command_line libreoffice_path doc_file output_path) (fs w))
         as [e0 msg | so se rc f'] eqn:Hp; simpl.
  all: try (split; [intros Hraise; invert Hraise; split; eauto
                   | intros (_ & [(m & Hm) | (_ & ? & ? & ? & ? & Hm & _)]);
                     congruence]).
  all: destruct (utf8_valid so) eqn:Hso, (utf8_valid se) eqn:Hse,
         (truthy so) eqn:Hts, (truthy se) eqn:Hte, (truthy (strip se)) eqn:Hst;
    decode_cases; try congruence; simpl.
  all: split;
    [ intros Hraise; invert Hraise;
      (split; [auto|]; right; split; [reflexivity|];
       eexists _, _, _, _; split; [reflexivity|]; auto)
    | intros (_ & [(m & Hm) | (-> & so' & se' & rc' & f'' & Hm & Hbad)]);
      simplify_eq; try reflexivity; destruct Hbad; congruence ].
Qed.


End Escapes.

(** ** The docx2md batch *)

Section MdBatch.

Variable popen : list string -> gmap string node -> popen_result.
Variable glob : string -> bool -> gmap string node -> list string.

Abbreviation convert_to_md := (Docx2Md.convert_to_md popen).
Abbreviation convert_each := (Docx2MdBatch.convert_each popen).
Abbreviation md_command pandoc_path output_directory :=
  (fun docx_file =>
     Docx2Md.command_line pandoc_path docx_file
       (Docx2Md.output_file_of output_directory docx_file)).

(** X8. When pandoc ran and its output decodes, the exit status alone
    decides what [convert_to_md] reports: "Finished converting" is
    logged exactly when the status is 0, whatever was written on the
    standard error, and "Failed to convert", with the text of the
    standard error, exactly when it is not; the call returns, pandoc is
    the one program that ran, and the target is as pandoc left it. *)
Theorem exit_status_decides_md_report :
  forall pandoc_path docx_file output_directory overwrite verbose w
         stdout stderr returncode fs',
    overwrite = true
    \/ os_path_exists (Docx2Md.output_file_of output_directory docx_file) w = false ->
    popen (md_command pandoc_path output_directory docx_file) (fs w)
    = PopenExits stdout stderr returncode fs' ->
    utf8_valid stdout = true ->
    utf8_valid stderr = true ->
    exists w' new,
      convert_to_md pandoc_path docx_file output_directory overwrite verbose w
      = (Return tt, w')
      /\ fs w' !! Docx2Md.output_file_of output_directory docx_file
         = fs' !! Docx2Md.output_file_of output_directory docx_file
      /\ procs w' = (procs w ++ [md_command pandoc_path output_directory docx_file])%list
      /\ log w' = (log w ++ new)%list
      /\ (In (LogRecord INFO "Finished converting %s to %s"
                [docx_file; Docx2Md.output_file_of output_directory docx_file]) new
          <-> returncode = 0)
      /\ (In (LogRecord ERROR "Failed to convert %s to %s: %s"
                [docx_file; Docx2Md.output_file_of output_directory docx_file;
                 string_of_list_byte stderr]) new
          <-> returncode <> 0).
Proof.
  intros pandoc_path docx_file output_directory overwrite verbose w
    stdout stderr returncode fs' Hskip Hpopen Hout Herr.
  unfold Docx2Md.convert_to_md, spawn, decode.
  assert (Hgo : negb overwrite
                && os_path_exists (Docx2Md.output_file_of output_directory docx_file) w
                = false).
  { destruct Hskip as [-> | ->]; [reflexivity | apply andb_false_r]. }
  rewrite Hgo. cbn [fs logging]. rewrite Hpopen, Hout, Herr.
  destruct (Z.eqb_spec returncode 0) as [-> | Hrc]; simpl.
  - destruct verbose; simpl.
    all: eexists _, _; (split; [reflexivity|]); (split; [reflexivity|]);
      (split; [reflexivity|]);
      simpl; rewrite <- ?app_assoc; (split; [reflexivity|]); simpl.
    all: split; split; auto 10; intros H; repeat destruct H as [H | H];
      try discriminate; try contradiction.
  - eexists _, _; (split; [reflexivity|]); (split; [reflexivity|]);
      (split; [reflexivity|]);
      simpl; rewrite <- ?app_assoc; (split; [reflexivity|]); simpl.
    split; split; auto 10; intros H; repeat destruct H as [H | H];
      try discriminate; try contradiction.
Qed.

(** What one conversion adds to the trace of processes: the command
    line of pandoc, when the file is not skipped and pandoc could be
    started. *)
Lemma convert_to_md_spawns pandoc_path docx_file output_directory overwrite verbose w :
  let w' := snd (convert_to_md pandoc_path docx_file output_directory overwrite verbose w) in
  reqs w' = reqs w
  /\ procs w'
     = if negb overwrite
          && os_path_exists (Docx2Md.output_file_of output_directory docx_file) w
       then procs w
       else match popen (md_command pandoc_path output_directory docx_file) (fs w) with
            | PopenExits _ _ _ _ =>
                (procs w ++ [md_command pandoc_path output_directory docx_file])%list
            | PopenRaises _ _ => procs w
            end.
Proof.
  unfold Docx2Md.convert_to_md, spawn, decode.
  repeat (split_match; simplify_eq/=); split; reflexivity.
Qed.

Lemma convert_each_spawns pandoc_path output_directory overwrite verbose :
  forall docx_files w,
    exists spawned,
      sublist spawned docx_files
      /\ procs (snd (convert_each pandoc_path docx_files output_directory
                       overwrite verbose w))
         = (procs w ++ map (md_command pandoc_path output_directory) spawned)%list
      /\ reqs (snd (convert_each pandoc_path docx_files output_directory
                      overwrite verbose w)) = reqs w
      /\ ((forall argv f e msg, popen argv f <> PopenRaises e msg) ->
          overwrite = true ->
          fst (convert_each pandoc_path docx_files output_directory overwrite verbose w)
          = Return tt ->
          spawned = docx_files).
Proof.
  induction docx_files as [|f rest IH]; intros w.
  - exists []. simpl. rewrite app_nil_r. repeat split; auto; constructor.
  - cbn [Docx2MdBatch.convert_each].
    pose proof (convert_to_md_spawns pandoc_path f output_directory overwrite verbose w)
      as (Hreqs & Hprocs).
    destruct (convert_to_md pandoc_path f output_directory overwrite verbose w)
      as [[[] | e] w1] eqn:Hone; simpl in Hreqs, Hprocs.
    + destruct (IH w1) as (spawned & Hsub & Hp & Hr & Hall).
      rewrite Hp, Hr, Hreqs, Hprocs.
      destruct (negb overwrite && os_path_exists _ w) eqn:Hskip.
      * exists spawned. repeat split; auto.
        -- by apply sublist_cons.
        -- intros _ ->. discriminate.
      * destruct (popen (md_command pandoc_path output_directory f) (fs w))
          as [e0 msg | so se rc f'] eqn:Hpopen.
        -- exists spawned. repeat split; auto.
           ++ by apply sublist_cons.
           ++ intros Hstarts. by destruct (Hstarts _ _ _ _ Hpopen).
        -- exists (f :: spawned). repeat split.
           ++ by apply sublist_skip.
           ++ simpl. by rewrite <- app_assoc.
           ++ intros Hstarts Ho Hret. by rewrite (Hall Hstarts Ho Hret).
    + simpl. rewrite Hreqs, Hprocs.
      destruct (negb overwrite && os_path_exists _ w) eqn:Hskip.
      * exists []. rewrite app_nil_r.
        repeat split; auto; [apply sublist_nil_l | discriminate].
      * destruct (popen (md_command pandoc_path output_directory f) (fs w))
          as [e0 msg | so se rc f'] eqn:Hpopen.
        -- exists []. rewrite app_nil_r.
           repeat split; auto; [apply sublist_nil_l | discriminate].
        -- exists [f]. repeat split; auto; [|discriminate].
           apply sublist_skip, sublist_nil_l.
Qed.

(** X9. The batch of [docx2md]: without a pandoc path [main] logs one
    error and runs nothing; with one, the programs that ran are pandoc
    command lines for files that the search returned, in the order of
    the search and at most one per file: a file that is skipped, or for
    which pandoc could not be started, has none.  When pandoc can always
    be started, [overwrite] is set and the batch ends normally, there is
    exactly one per file.  No request is made. *)
Theorem md_batch_spawns :
  forall source output verbose overwrite w,
    Docx2MdBatch.main popen glob source output None verbose overwrite w
    = (Return tt, logging ERROR "Pandoc executable not found." [] w)
    /\ Docx2MdBatch.main popen glob source output (Some "") verbose overwrite w
       = (Return tt, logging ERROR "Pandoc executable not found." [] w)
    /\ forall pandoc_path,
         pandoc_path <> "" ->
         exists spawned,
           sublist spawned (Docx2MdBatch.get_docx_files glob source w)
           /\ procs (snd (Docx2MdBatch.main popen glob source output (Some pandoc_path)
                            verbose overwrite w))
              = (procs w ++ map (md_command pandoc_path output) spawned)%list
           /\ reqs (snd (Docx2MdBatch.main popen glob source output (Some pandoc_path)
                           verbose overwrite w)) = reqs w
           /\ ((forall argv f e msg, popen argv f <> PopenRaises e msg) ->
               overwrite = true ->
               fst (Docx2MdBatch.main popen glob source output (Some pandoc_path)
                      verbose overwrite w) = Return tt ->
               spawned = Docx2MdBatch.get_docx_files glob source w).
Proof.
  intros source output verbose overwrite w.
  split; [reflexivity|]. split; [reflexivity|].
  intros pandoc_path Hne. unfold Docx2MdBatch.main.
  destruct pandoc_path as [|c p]; [contradiction|].
  apply convert_each_spawns.
Qed.

End MdBatch.

Section FailingTool.

Variable popen : list string -> gmap string node -> popen_result.
Variable glob : string -> bool -> gmap string node -> list string.

(** The program fails on every input: it exits with a status other
    than 0, what it writes on its standard error decodes, and it leaves
    the file system alone. *)
Hypothesis always_fails :
  forall argv f, exists stdout stderr returncode,
    popen argv f = PopenExits stdout stderr returncode f
    /\ returncode <> 0 /\ utf8_valid stderr = true.

Lemma error_records_app (l1 l2 : list log_record) :
  error_records (l1 ++ l2)%list = (error_records l1 + error_records l2)%nat.
Proof.
  induction l1 as [|[[] f a] l1 IH]; simpl; lia.
Qed.

Lemma failing_conversion pandoc_path docx_file output_directory overwrite verbose w :
  exists w',
    Docx2Md.convert_to_md popen pandoc_path docx_file output_directory overwrite verbose w
    = (Return tt, w')
    /\ fs w' = fs w
    /\ error_records (log w')
       = (error_records (log w)
          + if overwrite
               || negb (os_path_exists
                          (Docx2Md.output_file_of output_directory docx_file) w)
            then 1 else 0)%nat.
Proof.
  unfold Docx2Md.convert_to_md, spawn, decode.
  destruct overwrite,
    (os_path_exists (Docx2Md.output_file_of output_directory docx_file) w);
    cbn [negb andb orb fs logging].
  3: { eexists. split; [reflexivity|]. simpl. rewrite error_records_app. simpl.
       split; [reflexivity | lia]. }
  all: match goal with |- context [popen ?argv ?f] =>
         destruct (always_fails argv f) as (so & se & rc & -> & Hrc & Hse)
       end.
  all: destruct (Z.eqb_spec rc 0) as [? | _]; [contradiction|]; simpl; rewrite Hse.
  all: eexists; (split; [reflexivity|]); simpl; rewrite !error_records_app; simpl.
  all: split; [reflexivity | lia].
Qed.

(** X10. With a program that fails on every input, the batch still
    goes through all the files and ends normally: every file that is not
    skipped gives one error record, and the target of every file is as
    it was before the batch. *)
Theorem failing_tool_logs_every_file :
  forall source output pandoc_path verbose overwrite w,
    pandoc_path <> "" ->
    exists w',
      Docx2MdBatch.main popen glob source output (Some pandoc_path) verbose overwrite w
      = (Return tt, w')
      /\ (forall docx_file,
            In docx_file (Docx2MdBatch.get_docx_files glob source w) ->
            fs w' !! Docx2Md.output_file_of output docx_file
            = fs w !! Docx2Md.output_file_of output docx_file)
      /\ error_records (log w')
         = (error_records (log w)
            + List.length
                (List.filter
                   (fun docx_file =>
                      overwrite
                      || negb (os_path_exists
                                 (Docx2Md.output_file_of output docx_file) w))
                   (Docx2MdBatch.get_docx_files glob source w)))%nat.
Proof.
  intros source output pandoc_path verbose overwrite w Hne.
  unfold Docx2MdBatch.main. destruct pandoc_path as [|c p]; [contradiction|].
  set (pandoc := String c p).
  generalize (Docx2MdBatch.get_docx_files glob source w). intros files.
  assert (Hgen : forall w0, fs w0 = fs w ->
            exists w',
              Docx2MdBatch.convert_each popen pandoc files output overwrite verbose w0
              = (Return tt, w')
              /\ fs w' = fs w
              /\ error_records (log w')
                 = (error_records (log w0)
                    + List.length
                        (List.filter
                           (fun docx_file =>
                              overwrite
                              || negb (os_path_exists
                                         (Docx2Md.output_file_of output docx_file) w))
                           files))%nat).
  { induction files as [|f rest IH]; intros w0 Hfs.
    - exists w0. simpl. repeat split; auto; lia.
    - cbn [Docx2MdBatch.convert_each].
      destruct (failing_conversion pandoc f output overwrite verbose w0)
        as (w1 & -> & Hfs1 & Herr1).
      destruct (IH w1) as (w' & -> & Hfs' & Herr'); [congruence|].
      exists w'. split; [reflexivity|]. split; [exact Hfs'|].
      rewrite Herr', Herr1. simpl.
      assert (Hex : os_path_exists (Docx2Md.output_file_of output f) w0
                    = os_path_exists (Docx2Md.output_file_of output f) w).
      { unfold os_path_exists. by rewrite Hfs. }
      rewrite Hex.
      destruct (overwrite || negb (os_path_exists (Docx2Md.output_file_of output f) w));
        simpl; lia. }
  destruct (Hgen w eq_refl) as (w' & Hrun & Hfs & Herr).
  exists w'. split; [exact Hrun|]. split; [|exact Herr].
  intros docx_file _. by rewrite Hfs.
Qed.

End FailingTool.

(** *** Runs that witness the statements on the converters *)

Lemma converted_iff_blank_stderr_witness :
  exists w' new,
    Doc2Docx.convert_to_docx MoreScenarios.silent_failure "soffice" "in/a.doc" "out" false
      Scenarios.empty_out
    = (Return tt, w')
    /\ log w' = (log Scenarios.empty_out ++ new)%list
    /\ (In (LogRecord INFO "Converted: %s to %s"
              ["in/a.doc"; Doc2Docx.output_file_of "out" "in/a.doc"]) new
        <-> forallb is_ascii_whitespace [] = true).
Proof.
  apply (converted_iff_blank_stderr MoreScenarios.silent_failure "soffice" "in/a.doc"
           "out" false Scenarios.empty_out [] [] 1 (fs Scenarios.empty_out)).
  - left. reflexivity.
  - reflexivity.
  - reflexivity.
  - reflexivity.
Defined.

Lemma convert_to_docx_raises_iff_witness :
  fst (Doc2Docx.convert_to_docx MoreScenarios.not_found "soffice" "in/a.doc" "out" false
         Scenarios.empty_out) = Raise OSError.
Proof.
  apply (proj2 (convert_to_docx_raises_iff MoreScenarios.not_found "soffice" "in/a.doc"
                  "out" false Scenarios.empty_out OSError)).
  split; [left; reflexivity|].
  left. exists "No such file or directory". reflexivity.
Defined.


Lemma exit_status_decides_md_report_witness :
  exists w' new,
    Docx2Md.convert_to_md MoreScenarios.pandoc_fails "pandoc" "in/a.docx" "out" false false
      Scenarios.empty_out
    = (Return tt, w')
    /\ fs w' !! Docx2Md.output_file_of "out" "in/a.docx"
       = fs Scenarios.empty_out !! Docx2Md.output_file_of "out" "in/a.docx"
    /\ procs w'
       = (procs Scenarios.empty_out
          ++ [Docx2Md.command_line "pandoc" "in/a.docx"
                (Docx2Md.output_file_of "out" "in/a.docx")])%list
    /\ log w' = (log Scenarios.empty_out ++ new)%list
    /\ (In (LogRecord INFO "Finished converting %s to %s"
              ["in/a.docx"; Docx2Md.output_file_of "out" "in/a.docx"]) new
        <-> 2 = 0)
    /\ (In (LogRecord ERROR "Failed to convert %s to %s: %s"
              ["in/a.docx"; Docx2Md.output_file_of "out" "in/a.docx";
               string_of_list_byte Scenarios.complaint]) new
        <-> 2 <> 0).
Proof.
  apply (exit_status_decides_md_report MoreScenarios.pandoc_fails "pandoc" "in/a.docx"
           "out" false false Scenarios.empty_out [] Scenarios.complaint 2
           (fs Scenarios.empty_out)).
  - right. reflexivity.
  - reflexivity.
  - reflexivity.
  - reflexivity.
Defined.

Lemma md_batch_spawns_witness :
  exists spawned,
    sublist spawned
      (Docx2MdBatch.get_docx_files MoreScenarios.glob_two "in" Scenarios.empty_out)
    /\ procs (snd (Docx2MdBatch.main MoreScenarios.pandoc_fails MoreScenarios.glob_two
                     "in" "out" (Some "pandoc") false true Scenarios.empty_out))
       = (procs Scenarios.empty_out
          ++ map (fun docx_file =>
                    Docx2Md.command_line "pandoc" docx_file
                      (Docx2Md.output_file_of "out" docx_file)) spawned)%list
    /\ reqs (snd (Docx2MdBatch.main MoreScenarios.pandoc_fails MoreScenarios.glob_two
                    "in" "out" (Some "pandoc") false true Scenarios.empty_out))
       = reqs Scenarios.empty_out
    /\ spawned
       = Docx2MdBatch.get_docx_files MoreScenarios.glob_two "in" Scenarios.empty_out.
Proof.
  destruct (proj2 (proj2 (md_batch_spawns MoreScenarios.pandoc_fails
                            MoreScenarios.glob_two "in" "out" false true
                            Scenarios.empty_out)) "pandoc")
    as (spawned & Hsub & Hprocs & Hreqs & Hall).
  - discriminate.
  - exists spawned. split; [exact Hsub|]. split; [exact Hprocs|]. split; [exact Hreqs|].
    apply Hall.
    + intros argv f e msg. discriminate.
    + reflexivity.
    + reflexivity.
Defined.

Lemma failing_tool_logs_every_file_witness :
  exists w',
    Docx2MdBatch.main MoreScenarios.pandoc_fails MoreScenarios.glob_two "in" "out"
      (Some "pandoc") false false Scenarios.empty_out
    = (Return tt, w')
    /\ (forall docx_file,
          In docx_file
            (Docx2MdBatch.get_docx_files MoreScenarios.glob_two "in" Scenarios.empty_out) ->
          fs w' !! Docx2Md.output_file_of "out" docx_file
          = fs Scenarios.empty_out !! Docx2Md.output_file_of "out" docx_file)
    /\ error_records (log w')
       = (error_records (log Scenarios.empty_out)
          + List.length
              (List.filter
                 (fun docx_file =>
                    false
                    || negb (os_path_exists (Docx2Md.output_file_of "out" docx_file)
                               Scenarios.empty_out))
                 (Docx2MdBatch.get_docx_files MoreScenarios.glob_two "in"
                    Scenarios.empty_out)))%nat.
Proof.
  apply (failing_tool_logs_every_file MoreScenarios.pandoc_fails MoreScenarios.glob_two).
  - intros argv f. exists [], Scenarios.complaint, 2.
    split; [reflexivity|]. split; [lia | reflexivity].
  - discriminate.
Defined.

(** ** The link filter on any page *)

Lemma any_endswith_no_href (extensions : list string) :
  FileScraper.any_endswith None extensions
  = match extensions with [] => Return false | _ => Raise AttributeError end.
Proof. by destruct extensions. Qed.

(** What the filter can raise: [AttributeError] for an anchor without
    [href], or what [urljoin] raises on a retained [href]. *)
Lemma link_filter_raise (urljoin : string -> string -> outcome string) (url : string)
    (extensions : list string) (links : list (option string)) (e : exn) :
  FileScraper.files_to_download urljoin url extensions links = Raise e ->
  (e = AttributeError /\ extensions <> [] /\ In None links)
  \/ (exists h, In (Some h) links /\ existsb (endswith h) extensions = true
                /\ urljoin url h = Raise e).
Proof.
  induction links as [|[h|] rest IH]; cbn [FileScraper.files_to_download].
  - discriminate.
  - rewrite any_endswith_href.
    destruct (existsb (endswith h) extensions) eqn:Hret.
    + cbn [FileScraper.urljoin_href].
      destruct (urljoin url h) as [file | e0] eqn:Hu.
      * destruct (FileScraper.files_to_download urljoin url extensions rest)
          as [files | e1]; [discriminate|].
        intros H. invert H.
        destruct (IH eq_refl) as [(-> & Hext & Hin) | (h' & Hin & Hr & Hj)].
        -- left. repeat split; auto. by right.
        -- right. exists h'. repeat split; auto. by right.
      * intros H. invert H. right. exists h. repeat split; auto. by left.
    + intros H.
      destruct (IH H) as [(-> & Hext & Hin) | (h' & Hin & Hr & Hj)].
      * left. repeat split; auto. by right.
      * right. exists h'. repeat split; auto. by right.
  - rewrite any_endswith_no_href. destruct extensions as [|x xs].
    + intros H.
      destruct (IH H) as [(_ & Hext & _) | (h' & Hin & Hr & Hj)]; [contradiction|].
      right. exists h'. repeat split; auto. by right.
    + intros H. invert H. left. repeat split; [discriminate | by left].
Qed.

(** When the filter returns: no anchor without [href] is tested, and
    [urljoin] resolves every retained [href]. *)
Lemma link_filter_return (urljoin : string -> string -> outcome string) (url : string)
    (extensions : list string) (links : list (option string)) :
  (exists files, FileScraper.files_to_download urljoin url extensions links = Return files)
  <-> (extensions = [] \/ ~ In None links)
      /\ forall h, In (Some h) links -> existsb (endswith h) extensions = true ->
                   exists file, urljoin url h = Return file.
Proof.
  induction links as [|[h|] rest IH]; cbn [FileScraper.files_to_download].
  - split; [|eauto]. intros _. split; [right; intros [] | intros h []].
  - rewrite any_endswith_href.
    destruct (existsb (endswith h) extensions) eqn:Hret.
    + cbn [FileScraper.urljoin_href].
      destruct (urljoin url h) as [file | e0] eqn:Hu.
      * destruct (FileScraper.files_to_download urljoin url extensions rest)
          as [files | e1].
        -- split; [|eauto]. intros _.
           destruct (proj1 IH) as [Hnone Hall]; [eauto|].
           split.
           ++ destruct Hnone as [? | Hnone]; [by left | right].
              intros [? | ?]; [discriminate | auto].
           ++ intros h' [Heq | Hin] Hr; [invert Heq; eauto | by apply Hall].
        -- split; [intros (? & ?); discriminate|].
           intros (Hnone & Hall). apply IH. split.
           ++ destruct Hnone as [? | Hnone]; [by left | right].
              intros ?. apply Hnone. by right.
           ++ intros h' Hin Hr. apply Hall; [by right | exact Hr].
      * split; [intros (? & ?); discriminate|].
        intros (_ & Hall). destruct (Hall h) as (file & Hfile); [by left | exact Hret |].
        congruence.
    + rewrite IH. split; intros (Hnone & Hall); split.
      * destruct Hnone as [? | Hnone]; [by left | right].
        intros [? | ?]; [discriminate | auto].
      * intros h' [Heq | Hin] Hr; [invert Heq; congruence | by apply Hall].
      * destruct Hnone as [? | Hnone]; [by left | right].
        intros ?. apply Hnone. by right.
      * intros h' Hin Hr. apply Hall; [by right | exact Hr].
  - rewrite any_endswith_no_href. destruct extensions as [|x xs].
    + rewrite IH. split; intros (_ & Hall); (split; [by left|]).
      * intros h' [? | Hin] Hr; [discriminate | by apply Hall].
      * intros h' Hin Hr. apply Hall; [by right | exact Hr].
    + split; [intros (? & ?); discriminate|].
      intros ([? | Hnone] & _); [discriminate|]. destruct Hnone. by left.
Qed.

(** X12. The list of candidates is built or an exception leaves the
    filter.  It is built exactly when no anchor without [href] is tested
    against an extension, which needs an empty list of extensions or an
    [href] on every anchor, and [urljoin] resolves every retained
    [href].  An exception that leaves it is the [AttributeError] of an
    anchor without [href], with an extension requested, or what
    [urljoin] raised on a retained [href]; where [urljoin] resolves
    every [href], the filter raises exactly when an extension is
    requested and some anchor has no [href].  With an empty list of
    extensions it retains nothing, whatever the anchors. *)
Theorem link_filter_raises_iff :
  forall (urljoin : string -> string -> outcome string) (url : string)
         (extensions : list string) (links : list (option string)),
    ((exists files,
        FileScraper.files_to_download urljoin url extensions links = Return files)
     <-> (extensions = [] \/ ~ In None links)
         /\ forall h, In (Some h) links -> existsb (endswith h) extensions = true ->
                      exists file, urljoin url h = Return file)
    /\ (forall e,
          FileScraper.files_to_download urljoin url extensions links = Raise e ->
          (e = AttributeError /\ extensions <> [] /\ In None links)
          \/ (exists h, In (Some h) links /\ existsb (endswith h) extensions = true
                        /\ urljoin url h = Raise e))
    /\ ((forall h e, urljoin url h <> Raise e) ->
        forall e,
          FileScraper.files_to_download urljoin url extensions links = Raise e
          <-> e = AttributeError /\ extensions <> [] /\ In None links)
    /\ (extensions = [] ->
        FileScraper.files_to_download urljoin url extensions links = Return []).
Proof.
  intros urljoin url extensions links.
  split; [apply link_filter_return|].
  split; [intros e; apply link_filter_raise|].
  split.
  - intros Hres e. split.
    + intros H.
      destruct (link_filter_raise _ _ _ _ _ H) as [? | (h & _ & _ & Hj)]; [assumption|].
      by destruct (Hres h e).
    + intros (-> & Hext & Hin).
      destruct (FileScraper.files_to_download urljoin url extensions links)
        as [files | e] eqn:Hrun.
      * assert (Hret : exists files0,
                  FileScraper.files_to_download urljoin url extensions links
                  = Return files0) by eauto.
        apply link_filter_return in Hret as ([? | Hnone] & _); contradiction.
      * destruct (link_filter_raise _ _ _ _ _ Hrun) as [(-> & _) | (h & _ & _ & Hj)];
          [reflexivity|].
        by destruct (Hres h e).
  - intros ->. induction links as [|link rest IH]; simpl; [reflexivity|].
    rewrite IH. by destruct link.
Qed.

Lemma link_filter_raises_iff_witness :
  FileScraper.files_to_download Scenarios.urljoin_plain "http://example.com/" [".pdf"]
    [Some "a.pdf"; None] = Raise AttributeError
  /\ ((exists h, In (Some h) [Some "http://[x.pdf"]
                 /\ existsb (endswith h) [".pdf"] = true
                 /\ MoreScenarios.urljoin_brackets "http://example.com/" h
                    = Raise ValueError)
      \/ ValueError = AttributeError).
Proof.
  split.
  - destruct (link_filter_raises_iff Scenarios.urljoin_plain "http://example.com/"
                [".pdf"] [Some "a.pdf"; None]) as (_ & _ & Hiff & _).
    apply Hiff.
    + intros h e. unfold Scenarios.urljoin_plain. discriminate.
    + split; [reflexivity|]. split; [discriminate|]. right. left. reflexivity.
  - destruct (proj1 (proj2 (link_filter_raises_iff MoreScenarios.urljoin_brackets
                              "http://example.com/" [".pdf"] [Some "http://[x.pdf"]))
                ValueError) as [(Heq & _) | Hjoin].
    + reflexivity.
    + by right.
    + by left.
Defined.

(** ** What a download touches and what can leave it *)

Section DownloadFrame.
Import FileScraper.

Variable net : nat -> string -> bool -> Z -> get_result.
Variable urljoin : string -> string -> outcome string.
Variable dir_size : string -> Z.
Variable makedirs : string -> gmap string node -> outcome (gmap string node).

Abbreviation download_file := (download_file net dir_size).
Abbreviation download_loop := (download_loop net dir_size).
Abbreviation download_files := (download_files net urljoin dir_size makedirs).

Ltac forget_stream :=
  repeat match goal with
  | |- context [write_chunks ?f ?v ?t ?cs ?wr ?w1] =>
      let Hr := fresh "Hr" in
      let Hp := fresh "Hp" in
      let Hl := fresh "Hl" in
      let Ho := fresh "Ho" in
      pose proof (write_chunks_traces f v t cs wr w1) as (Hr & Hp & Hl & _ & _);
      pose proof (fun g => write_chunks_fs_other f v t cs wr w1 g) as Ho;
      simpl in Hr, Hp, Hl, Ho;
      generalize dependent (write_chunks f v t cs wr w1); intros
  end.

Lemma download_file_touches url filename verbose overwrite timeout w :
  let w' := snd (download_file url filename verbose overwrite timeout w) in
  (forall g, g <> filename -> fs w' !! g = fs w !! g)
  /\ procs w' = procs w
  /\ log w' = log w
  /\ reqs w' = if os_path_exists filename w && negb overwrite
               then reqs w else (reqs w ++ [url])%list.
Proof.
  unfold_download.
  repeat (split_match; simplify_eq/=); forget_stream; simpl.
  all: repeat split; try congruence.
  all: intros g Hg; rewrite ?lookup_delete_ne by congruence;
    rewrite ?Ho by exact Hg; rewrite ?lookup_insert_ne by congruence; reflexivity.
Qed.

Lemma download_file_escapes url filename verbose overwrite timeout w e w' :
  download_file url filename verbose overwrite timeout w = (Raise e, w') ->
  (e = KeyboardInterrupt
   /\ (net (List.length (reqs w)) url true timeout = GetInterrupted
       \/ exists resp, net (List.length (reqs w)) url true timeout = GetOk resp
                       /\ ending resp = StreamInterrupted))
  \/ (e = ValueError /\ fs w !! filename = None
      /\ exists resp, net (List.length (reqs w)) url true timeout = GetOk resp
                      /\ content_length resp = CLMalformed)
  \/ (e = UnboundLocalError /\ overwrite = true
      /\ (exists n, fs w !! filename = Some n)
      /\ forall resp, net (List.length (reqs w)) url true timeout = GetOk resp ->
                      content_length resp = CLMalformed)
  \/ (e = OSError /\ overwrite = true /\ fs w !! filename = Some Dir).
Proof.
  unfold_download. unfold os_path_exists, int_content_length. intros H.
  repeat (split_match; simplify_eq/=).
  all: repeat match goal with
       | H : context [fs (write_chunks ?f ?v ?t ?cs [] ?w1) !! ?f] |- _ =>
           rewrite (write_chunks_file f v t cs [] w1) in H
             by (simpl; apply lookup_insert_eq)
       end; simplify_eq.
  all: match goal with
       | |- (KeyboardInterrupt = _ /\ _) \/ _ => left; split; [reflexivity|]; eauto
       | |- _ \/ (ValueError = _ /\ _) \/ _ =>
           right; left; split; [reflexivity|]; split; [reflexivity|]; eauto
       | |- _ \/ _ \/ (UnboundLocalError = _ /\ _) \/ _ =>
           right; right; left; split; [reflexivity|]; split; [reflexivity|];
           split; [eauto|]; intros ? ?; congruence
       | |- _ \/ _ \/ _ \/ (OSError = _ /\ _) =>
           right; right; right; split; [reflexivity|]; split; [reflexivity|]; eauto
       end.
Qed.

(** X13. Whatever the server does, [download_file] leaves every path
    other than [filename] as it was, spawns no process and logs nothing;
    it makes one request, for [url], unless it skips, and then it makes
    none. *)
Theorem download_file_frame :
  forall url filename verbose overwrite timeout w,
    (forall g, g <> filename ->
       fs (snd (download_file url filename verbose overwrite timeout w)) !! g = fs w !! g)
    /\ procs (snd (download_file url filename verbose overwrite timeout w)) = procs w
    /\ log (snd (download_file url filename verbose overwrite timeout w)) = log w
    /\ reqs (snd (download_file url filename verbose overwrite timeout w))
       = if os_path_exists filename w && negb overwrite
         then reqs w else (reqs w ++ [url])%list.
Proof.
  intros url filename verbose overwrite timeout w.
  exact (download_file_touches url filename verbose overwrite timeout w).
Qed.


(** *** The batch *)

Lemma targets_cons (g project_folder file : string) (rest : list string) :
  ~ In g (targets project_folder (file :: rest)) ->
  g <> join project_folder (basename file) /\ ~ In g (targets project_folder rest).
Proof. clear. unfold targets. simpl. intuition. Qed.

Lemma download_loop_touches files project_folder verbose overwrite timeout :
  forall d w,
    (forall g, ~ In g (targets project_folder files) ->
       fs (snd (download_loop files project_folder verbose overwrite timeout d w)) !! g
       = fs w !! g)
    /\ procs (snd (download_loop files project_folder verbose overwrite timeout d w))
       = procs w
    /\ log (snd (download_loop files project_folder verbose overwrite timeout d w))
       = log w
    /\ forall u,
         In u (reqs (snd (download_loop files project_folder verbose overwrite timeout
                            d w))) ->
         In u (reqs w) \/ In u files.
Proof.
  clear urljoin makedirs.
  induction files as [|file rest IH]; intros d w.
  - simpl. auto.
  - cbn [FileScraper.download_loop].
    set (filename := join project_folder (basename file)).
    pose proof (download_file_touches file filename verbose overwrite timeout w)
      as (Hfs & Hprocs & Hlog & Hreqs).
    assert (Hreq : forall u,
              In u (reqs (snd (download_file file filename verbose overwrite timeout w))) ->
              In u (reqs w) \/ In u (file :: rest)).
    { intros u. rewrite Hreqs. destruct (_ && _); [auto|].
      rewrite in_app_iff. simpl. intros [? | [? | []]]; auto. }
    clear Hreqs.
    destruct (download_file file filename verbose overwrite timeout w)
      as [[r | ex] w1] eqn:Hdl; simpl in Hfs, Hprocs, Hlog, Hreq.
    + destruct (increment d r) as [d1 | e1]; simpl.
      * destruct (IH d1 w1) as (IHfs & IHprocs & IHlog & IHreqs).
        rewrite IHprocs, IHlog. repeat split; auto.
        -- intros g Hg. destruct (targets_cons _ _ _ _ Hg) as [Hg1 Hg2].
           rewrite IHfs by exact Hg2. by apply Hfs.
        -- intros u Hu. destruct (IHreqs u Hu) as [Hu1 | Hu1]; [auto|].
           right. by right.
      * repeat split; auto;
          intros g Hg; destruct (targets_cons _ _ _ _ Hg) as [Hg1 Hg2]; by apply Hfs.
    + assert (Hplain :
        (forall g, ~ In g (targets project_folder (file :: rest)) ->
           fs w1 !! g = fs w !! g)
        /\ procs w1 = procs w /\ log w1 = log w
        /\ forall u, In u (reqs w1) -> In u (reqs w) \/ In u (file :: rest)).
      { repeat split; auto;
          intros g Hg; destruct (targets_cons _ _ _ _ Hg) as [Hg1 Hg2]; by apply Hfs. }
      destruct ex; try exact Hplain.
      unfold interrupt_handler, os_remove, os_path_exists. simpl.
      destruct (fs w1 !! filename) as [[data|]|] eqn:Hf; simpl.
      * destruct (increment d "error"); simpl; repeat split; auto;
          intros g Hg; destruct (targets_cons _ _ _ _ Hg) as [Hg1 Hg2];
          rewrite lookup_delete_ne by (fold filename in Hg1; congruence);
          by apply Hfs.
      * exact Hplain.
      * destruct (increment d "error"); exact Hplain.
Qed.

(** X3. The loop over the candidates saves each of them directly in
    the project folder: the name of its target is the last component of
    its URL, which contains no separator, whatever the folders in the
    URL, and the target is the project folder followed by that name.  A
    path that is not such a target is after the loop as it was before. *)
Theorem download_target_is_flat :
  forall files project_folder verbose overwrite timeout d w,
    (forall file,
       In file files ->
       rfind_nat "/" (basename file) = None
       /\ (exists head,
             file = head ++ basename file /\ (head = "" \/ endswith head "/" = true))
       /\ join project_folder (basename file)
          = in_folder project_folder (basename file))
    /\ (forall g,
          (forall file, In file files -> g <> in_folder project_folder (basename file)) ->
          fs (snd (download_loop files project_folder verbose overwrite timeout d w)) !! g
          = fs w !! g).
Proof.
  intros files project_folder verbose overwrite timeout d w. split.
  - intros file _.
    destruct (basename_is_last_component file) as [Hfree Hhead].
    split; [exact Hfree|]. split; [exact Hhead|]. by apply join_in_folder.
  - intros g Hg.
    apply (proj1 (download_loop_touches files project_folder verbose overwrite timeout
                    d w)).
    unfold targets. rewrite in_map_iff. intros (file & Hfile & Hin).
    apply (Hg file Hin). rewrite <- Hfile. apply join_in_folder, basename_sep_free.
Qed.

Lemma download_loop_escapes files project_folder verbose overwrite timeout :
  forall d w s o k e0 e w',
    has_counts d s o k e0 ->
    download_loop files project_folder verbose overwrite timeout d w = (Raise e, w') ->
    e = ValueError \/ e = UnboundLocalError \/ e = OSError.
Proof.
  induction files as [|file rest IH]; intros d w s o k e0 e w' Hc Hrun.
  - discriminate.
  - cbn [FileScraper.download_loop] in Hrun.
    destruct (download_file file (join project_folder (basename file))
                verbose overwrite timeout w) as [[r | ex] w1] eqn:Hdl.
    + destruct (increment_counts d r s o k e0 Hc
                  (download_file_results _ _ _ _ _ _ _ _ _ _ Hdl))
        as (d1 & s1 & k1 & e1 & Hinc & Hc1 & _).
      rewrite Hinc in Hrun. eapply IH; eassumption.
    + destruct (download_file_escapes _ _ _ _ _ _ _ _ Hdl)
        as [(-> & _) | [(-> & _) | [(-> & _) | (-> & _)]]]; simplify_eq; auto.
      unfold interrupt_handler, os_remove in Hrun.
      destruct Hc as (_ & _ & _ & He). unfold increment in Hrun. rewrite He in Hrun.
      repeat (split_match; simplify_eq/=); auto.
Qed.

End DownloadFrame.

Section BatchFrame.
Import FileScraper.

Variable net : nat -> string -> bool -> Z -> get_result.
Variable urljoin : string -> string -> outcome string.
Variable dir_size : string -> Z.
Variable makedirs : string -> gmap string node -> outcome (gmap string node).

Abbreviation download_file := (download_file net dir_size).
Abbreviation download_loop := (download_loop net dir_size).
Abbreviation download_files := (download_files net urljoin dir_size makedirs).

(** The candidates of a run: the links that the filter retains on the
    page that the server returns. *)
Abbreviation candidates url extensions timeout w files :=
  (exists resp,
     net (List.length (reqs w)) url false timeout = GetOk resp
     /\ files_to_download urljoin url extensions (anchors resp) = Return files).

(** What leaves [download_files], and where it comes from: the
    folder, the request for the page, the filter, or a download. *)
Lemma download_files_escapes url extensions project_folder create_folder
    verbose overwrite timeout w e w' :
  download_files url extensions project_folder create_folder verbose overwrite timeout w
  = (Raise e, w') ->
  (os_path_exists project_folder w = false
   /\ w' = w
   /\ ((create_folder = false /\ e = FileNotFoundError)
       \/ (create_folder = true /\ makedirs project_folder (fs w) = Raise e)))
  \/ (exists err, e = RequestException err
                  /\ net (List.length (reqs w)) url false timeout = GetRaises err)
  \/ (e = KeyboardInterrupt
      /\ net (List.length (reqs w)) url false timeout = GetInterrupted)
  \/ (exists resp,
        net (List.length (reqs w)) url false timeout = GetOk resp
        /\ files_to_download urljoin url extensions (anchors resp) = Raise e)
  \/ e = ValueError \/ e = UnboundLocalError \/ e = OSError.
Proof.
  unfold FileScraper.download_files, requests_get. intros H.
  destruct (os_path_exists project_folder w) eqn:Hex, create_folder;
    cbn [negb] in H.
  4: { simplify_eq/=. left. auto. }
  3: destruct (makedirs project_folder (fs w)) as [f | e0] eqn:Hmk;
       [|simplify_eq/=; left; auto 6].
  all: cbn [set_fs reqs fs procs out log] in H.
  all: destruct (net (List.length (reqs w)) url false timeout) as [resp | err |] eqn:Hnet;
    simplify_eq/=; [|right; left; eauto | right; right; left; auto].
  all: destruct (files_to_download urljoin url extensions (anchors resp))
         as [files | e1] eqn:Hfiles;
    [|simplify_eq/=; right; right; right; left; eauto].
  all: match type of H with context [download_loop ?a ?b ?c ?d ?t ?i ?w1] =>
         destruct (download_loop a b c d t i w1) as [[d1 | e1] w2] eqn:Hloop
       end.
  all: try (simplify_eq/=;
            destruct (download_loop_escapes net dir_size _ _ _ _ _ _ _ _ _ _ _ _ _
                        initial_counts Hloop) as [-> | [-> | ->]]; auto 8).
  all: destruct (download_loop_counts net dir_size _ _ _ _ _ _ _ _ _ _ _ _ _
                   initial_counts Hloop) as (s1 & k1 & e1 & (Hs & Ho & Hk & He) & _).
  all: unfold print_results, getitem in H; rewrite Hs, Ho, Hk, He in H; discriminate.
Qed.



(** X17. The tally never lacks a key, and no [KeyError], no requests
    exception and no [KeyboardInterrupt] leaves the loop over the
    candidates: a requests exception of a download is turned into an
    error of the tally, and an interruption of a download is handled by
    the loop, or replaced in [download_file] by [UnboundLocalError],
    which leaves.  When one of the three leaves [download_files], it is
    the exception of the request for the page, or it was raised by
    [os.makedirs] or by [urljoin]. *)
Theorem download_files_network_errors :
  forall url extensions project_folder create_folder verbose overwrite timeout w,
    (forall files d w0 e w1,
       download_loop files project_folder verbose overwrite timeout d w0
       = (Raise e, w1) ->
       (exists s o k e0, has_counts d s o k e0) ->
       (forall key, e <> KeyError key)
       /\ (forall err, e <> RequestException err)
       /\ e <> KeyboardInterrupt)
    /\ (forall e w',
          download_files url extensions project_folder create_folder verbose overwrite
            timeout w = (Raise e, w') ->
          (exists key, e = KeyError key)
          \/ (exists err, e = RequestException err)
          \/ e = KeyboardInterrupt ->
          (exists err, e = RequestException err
                       /\ net (List.length (reqs w)) url false timeout = GetRaises err)
          \/ (e = KeyboardInterrupt
              /\ net (List.length (reqs w)) url false timeout = GetInterrupted)
          \/ (os_path_exists project_folder w = false /\ create_folder = true
              /\ makedirs project_folder (fs w) = Raise e)
          \/ (exists resp h,
                net (List.length (reqs w)) url false timeout = GetOk resp
                /\ In (Some h) (anchors resp)
                /\ urljoin url h = Raise e)).
Proof.
  intros url extensions project_folder create_folder verbose overwrite timeout w.
  split.
  - intros files d w0 e w1 Hloop (s & o & k & e0 & Hc).
    destruct (download_loop_escapes net dir_size _ _ _ _ _ _ _ _ _ _ _ _ _ Hc Hloop)
      as [-> | [-> | ->]]; repeat split; intros; discriminate.
  - intros e w' H Hkind.
    destruct (download_files_escapes _ _ _ _ _ _ _ _ _ _ H)
      as [(Hex & _ & [(_ & ->) | (-> & Hmk)])
         | [(err & -> & Hnet) | [(-> & Hnet) | [(resp & Hnet & Hfilter)
         | [-> | [-> | ->]]]]]].
    + destruct Hkind as [(? & ?) | [(? & ?) | ?]]; discriminate.
    + right. right. left. auto.
    + left. eauto.
    + right. left. auto.
    + destruct (link_filter_raise _ _ _ _ _ Hfilter) as [(-> & _) | (h & Hin & _ & Hh)].
      * destruct Hkind as [(? & ?) | [(? & ?) | ?]]; discriminate.
      * right. right. right. eauto.
    + destruct Hkind as [(? & ?) | [(? & ?) | ?]]; discriminate.
    + destruct Hkind as [(? & ?) | [(? & ?) | ?]]; discriminate.
    + destruct Hkind as [(? & ?) | [(? & ?) | ?]]; discriminate.
Qed.

End BatchFrame.

(** ** Running a download twice, and the progress lines *)

Section Again.
Import FileScraper.

Variable net : nat -> string -> bool -> Z -> get_result.
Variable dir_size : string -> Z.

Abbreviation download_file := (download_file net dir_size).

(** X18. A download that completed with the expected number of bytes
    is kept by the next call on the same file without [overwrite],
    whatever URL that call is for: it returns "skipped", prints the
    "[Skipping]" line, makes no request, and the file still holds the
    bytes of the first download. *)
Theorem completed_download_is_kept :
  forall url filename verbose overwrite timeout w resp total,
    downloads filename overwrite w ->
    net (List.length (reqs w)) url true timeout = GetOk resp ->
    int_content_length (content_length resp) = Return total ->
    ending resp = StreamDone ->
    Z.of_nat (List.length (concat (chunks resp))) = total ->
    exists w1,
      download_file url filename verbose overwrite timeout w = (Return "success", w1)
      /\ forall url' verbose' timeout',
           download_file url' filename verbose' false timeout' w1
           = (Return "skipped", print (Skipping filename) w1)
           /\ fs (print (Skipping filename) w1) !! filename
              = Some (File (concat (chunks resp)))
           /\ reqs (print (Skipping filename) w1) = reqs w1.
Proof.
  intros url filename verbose overwrite timeout w resp total Hd Hnet Hint Hdone Heq.
  destruct (answered_match net dir_size url filename verbose overwrite timeout w resp
              total Hd Hnet Hint Heq) as (w1 & Hrun & Hfile & _).
  rewrite Hdone in Hrun. exists w1. split; [exact Hrun|].
  intros url' verbose' timeout'. unfold FileScraper.download_file.
  rewrite (exists_true _ _ _ Hfile). auto.
Qed.

(** X19. The progress of a stream: without [verbose] the loop over the
    chunks prints nothing; with it, it prints one line per chunk, and
    the line of the [k]-th chunk reports the number of bytes written up
    to that chunk and, as remaining, the expected size minus that
    number. *)
Theorem progress_lines :
  forall filename total cs written w,
    out (write_chunks filename false total cs written w) = out w
    /\ out (write_chunks filename true total cs written w)
       = (out w
          ++ map (fun k =>
                    Downloading filename
                      (Z.of_nat (List.length (written ++ concat (firstn k cs))))
                      (total
                       - Z.of_nat (List.length (written ++ concat (firstn k cs)))))
               (seq 1 (List.length cs)))%list.
Proof.
  intros filename total cs. induction cs as [|data rest IH]; intros written w.
  - simpl. by rewrite app_nil_r.
  - cbn [write_chunks]. split.
    + by rewrite (proj1 (IH _ _)).
    + rewrite (proj2 (IH _ _)). cbn [print out List.length seq map].
      rewrite <- app_assoc. f_equal. cbn [app]. f_equal.
      * cbn [firstn concat]. by rewrite app_nil_r.
      * rewrite <- (seq_shift (List.length rest) 1), map_map. apply map_ext. intros k.
        cbn [firstn concat]. by rewrite app_assoc.
Qed.

End Again.

(** *** Runs that witness the statements on downloads *)



Lemma download_files_network_errors_witness :
  (exists err,
     RequestException "Connection refused" = RequestException err
     /\ Scenarios.net_refused
          (List.length (reqs Scenarios.folder_with_old)) "http://example.com/" false 30
        = FileScraper.GetRaises err)
  \/ (RequestException "Connection refused" = KeyboardInterrupt
      /\ Scenarios.net_refused
           (List.length (reqs Scenarios.folder_with_old)) "http://example.com/" false 30
         = FileScraper.GetInterrupted)
  \/ (os_path_exists "dl" Scenarios.folder_with_old = false /\ false = true
      /\ Scenarios.makedirs_leaf "dl" (fs Scenarios.folder_with_old)
         = Raise (RequestException "Connection refused"))
  \/ (exists resp h,
        Scenarios.net_refused
          (List.length (reqs Scenarios.folder_with_old)) "http://example.com/" false 30
        = FileScraper.GetOk resp
        /\ In (Some h) (FileScraper.anchors resp)
        /\ Scenarios.urljoin_plain "http://example.com/" h
           = Raise (RequestException "Connection refused")).
Proof.
  assert (Hrun :
    FileScraper.download_files Scenarios.net_refused Scenarios.urljoin_plain
      Scenarios.four_kib Scenarios.makedirs_leaf "http://example.com/" [".pdf"] "dl"
      false false true 30 Scenarios.folder_with_old
    = (Raise (RequestException "Connection refused"),
       snd (FileScraper.download_files Scenarios.net_refused Scenarios.urljoin_plain
              Scenarios.four_kib Scenarios.makedirs_leaf "http://example.com/" [".pdf"]
              "dl" false false true 30 Scenarios.folder_with_old))) by reflexivity.
  apply (proj2 (download_files_network_errors Scenarios.net_refused
                  Scenarios.urljoin_plain Scenarios.four_kib Scenarios.makedirs_leaf
                  "http://example.com/" [".pdf"] "dl" false false true 30
                  Scenarios.folder_with_old) (RequestException "Connection refused")
           _ Hrun).
  right. left. by exists "Connection refused".
Defined.

Lemma completed_download_is_kept_witness :
  exists w1,
    FileScraper.download_file Scenarios.net_sends_two Scenarios.four_kib
      "http://example.com/a.pdf" "dl/a.pdf" false false 30 Scenarios.empty_folder
    = (Return "success", w1)
    /\ forall url' verbose' timeout',
         FileScraper.download_file Scenarios.net_sends_two Scenarios.four_kib
           url' "dl/a.pdf" verbose' false timeout' w1
         = (Return "skipped", print (Skipping "dl/a.pdf") w1)
         /\ fs (print (Skipping "dl/a.pdf") w1) !! "dl/a.pdf"
            = Some (File (concat [Scenarios.ab]))
         /\ reqs (print (Skipping "dl/a.pdf") w1) = reqs w1.
Proof.
  apply (completed_download_is_kept Scenarios.net_sends_two Scenarios.four_kib
           "http://example.com/a.pdf" "dl/a.pdf" false false 30 Scenarios.empty_folder
           (Scenarios.file_response (FileScraper.CLInt 2) [Scenarios.ab]
              FileScraper.StreamDone) 2).
  - left. reflexivity.
  - reflexivity.
  - reflexivity.
  - reflexivity.
  - reflexivity.
Defined.


Lemma download_target_is_flat_witness :
  fs (snd (FileScraper.download_loop Scenarios.net_sends_two Scenarios.four_kib
             ["http://example.com/files/a.pdf"] "dl" false false 30
             FileScraper.initial_results Scenarios.empty_folder)) !! "files/a.pdf"
  = fs Scenarios.empty_folder !! "files/a.pdf".
Proof.
  apply (proj2 (download_target_is_flat Scenarios.net_sends_two Scenarios.four_kib
                  ["http://example.com/files/a.pdf"] "dl" false false 30
                  FileScraper.initial_results Scenarios.empty_folder) "files/a.pdf").
  intros file [<- | []]. vm_compute. discriminate.
Defined.
